(** * Pizza Party HQ: order lifecycle and aggregation

    A shallow embedding of the order core of the point-of-sale application:
    the cart of [src/pages/CreateOrder.tsx], order submission, the status
    buttons of [src/pages/Orders.tsx] and of the order summary page, date
    grouping, the dashboard statistics and the sales report of
    [src/hooks/useFileManager.tsx].

    Arrays are lists, TypeScript interfaces are records, React state is
    passed explicitly, and each call to the hosted store is a function of
    the table contents and of the store's answer. *)

From Stdlib Require Import ZArith List String Ascii Bool Lia.
From Stdlib Require Import Permutation Sorted.
From Stdlib Require Import Floats.
From Stdlib Require Import Decimal DecimalNat DecimalString.
Import ListNotations.

Set Implicit Arguments.

(** ** JavaScript numbers

    Every amount in the application is a JavaScript [number], an IEEE 754
    binary64 value; [float] is the same format.  The code is written once
    over an interface of the operations it uses on numbers; the browser
    runs it on doubles, the instance [js_number]. *)

Class Number : Type := {
  num : Type;
  zero : num;
  add : num -> num -> num;
  mul : num -> num -> num;
  (** an integer held in a [number] (a quantity, a count) *)
  of_int : Z -> num;
  (** [ToBoolean]: a number is falsy when it is 0 or NaN *)
  truthy : num -> bool
}.

(** The double of an integer: the integer itself up to 2^53 in absolute
    value, beyond that the nearest double (ties to even), and an infinity
    from 2^1024 on. *)
Definition float_of_Z (z : Z) : float :=
  SF2Prim (binary_normalize prec emax z 0 false).

#[export] Instance js_number : Number := {|
  num := float;
  zero := 0%float;
  add := PrimFloat.add;
  mul := PrimFloat.mul;
  of_int := float_of_Z;
  truthy := fun x => negb (PrimFloat.eqb x 0%float || PrimFloat.is_nan x)
|}.

(** The double written with two decimals: [of_cents 1299] is [12.99]. *)
Definition of_cents (c : Z) : float :=
  PrimFloat.div (float_of_Z c) 100%float.

(** [Math.floor] on the finite doubles, through the mantissa and exponent. *)
Definition js_floor (x : float) : option Z :=
  match Prim2SF x with
  | S754_zero _ => Some 0%Z
  | S754_finite s m e =>
      let n := Z.pos m in
      if (0 <=? e)%Z then Some ((if s then -1 else 1) * (n * 2 ^ e))%Z
      else if s then Some (- ((n + 2 ^ (- e) - 1) / 2 ^ (- e)))%Z
      else Some (n / 2 ^ (- e))%Z
  | _ => None
  end.

(** Rounding to two decimals as the specification words it, written the
    usual way: [Math.round(x * 100) / 100]. *)
Definition spec_round2 (x : float) : float :=
  match js_floor (PrimFloat.add (PrimFloat.mul x 100%float) 0.5%float) with
  | Some k => PrimFloat.div (float_of_Z k) 100%float
  | None => x
  end.

(** [NaN]. *)
Definition NaN : float := PrimFloat.nan.

(** Text is held as its UTF-8 bytes.  The white space that [parseInt]
    skips is the language's [WhiteSpace] and [LineTerminator]: the ASCII
    characters U+0009 to U+000D and U+0020, and beyond ASCII U+00A0,
    U+1680, U+2000 to U+200A, U+2028, U+2029, U+202F, U+205F, U+3000 and
    U+FEFF, of two or three bytes each. *)
Definition is_white_space (c : ascii) : bool :=
  let n := nat_of_ascii c in
  ((9 <=? n) && (n <=? 13))%nat || (n =? 32)%nat.

Definition is_white_space_2 (c1 c2 : ascii) : bool :=
  ((nat_of_ascii c1 =? 194) && (nat_of_ascii c2 =? 160))%nat.

Definition is_white_space_3 (c1 c2 c3 : ascii) : bool :=
  let n1 := nat_of_ascii c1 in
  let n2 := nat_of_ascii c2 in
  let n3 := nat_of_ascii c3 in
  ((n1 =? 225) && (n2 =? 154) && (n3 =? 128)
   || (n1 =? 226) && (n2 =? 128)
      && ((128 <=? n3) && (n3 <=? 138) || (n3 =? 168) || (n3 =? 169) || (n3 =? 175))
   || (n1 =? 226) && (n2 =? 129) && (n3 =? 159)
   || (n1 =? 227) && (n2 =? 128) && (n3 =? 128)
   || (n1 =? 239) && (n2 =? 187) && (n3 =? 191))%nat.

Fixpoint skip_white_space (s : string) : string :=
  match s with
  | String c1 rest1 =>
      if is_white_space c1 then skip_white_space rest1
      else
        match rest1 with
        | String c2 rest2 =>
            if is_white_space_2 c1 c2 then skip_white_space rest2
            else
              match rest2 with
              | String c3 rest3 =>
                  if is_white_space_3 c1 c2 c3 then skip_white_space rest3 else s
              | EmptyString => s
              end
        | EmptyString => s
        end
  | EmptyString => s
  end.

Definition digit_value (c : ascii) : option Z :=
  let n := Z.of_nat (nat_of_ascii c) in
  if ((48 <=? n) && (n <=? 57))%Z then Some (n - 48)%Z
  else if ((97 <=? n) && (n <=? 122))%Z then Some (n - 87)%Z
  else if ((65 <=? n) && (n <=? 90))%Z then Some (n - 55)%Z
  else None.

(** The longest run of digits of the radix, as the integer it writes;
    [None] when the run is empty. *)
Fixpoint parse_digits (radix : Z) (s : string) (acc : option Z) : option Z :=
  match s with
  | String c rest =>
      match digit_value c with
      | Some d =>
          if (d <? radix)%Z
          then parse_digits radix rest
                 (Some (match acc with Some a => a * radix + d | None => d end)%Z)
          else acc
      | None => acc
      end
  | EmptyString => acc
  end.

(** [parseInt(s)] with no radix: leading white space, an optional sign, an
    optional [0x] prefix, then the longest run of digits.  The result is a
    number: [NaN] when the run is empty, [-0] for a zero after a minus
    sign, and otherwise the double of the signed integer written (for
    more than twenty decimal digits the language lets an engine round the
    digits beyond the twentieth; the exact value is taken here). *)
Definition parseInt (input : string) : float :=
  let s := skip_white_space input in
  let '(sign, s) :=
    match s with
    | String "-"%char rest => ((-1)%Z, rest)
    | String "+"%char rest => (1%Z, rest)
    | _ => (1%Z, s)
    end in
  let '(radix, s) :=
    match s with
    | String "0"%char (String "x"%char rest) => (16%Z, rest)
    | String "0"%char (String "X"%char rest) => (16%Z, rest)
    | _ => (10%Z, s)
    end in
  match parse_digits radix s None with
  | Some n =>
      if (sign =? -1)%Z && (n =? 0)%Z then PrimFloat.neg_zero
      else float_of_Z (sign * n)
  | None => NaN
  end.

(** ** The order form: [src/pages/CreateOrder.tsx] *)

Module CreateOrder.
Section WithNumber.
Context {N : Number}.

Record Product : Type := {
  id : string;
  name : string;
  price : num;
  image_url : option string;
  description : option string
}.

Record OrderItem : Type := {
  product : Product;
  quantity : Z
}.

(** [addToOrder]: the next value of the [orderItems] state. *)
Definition addToOrder (orderItems : list OrderItem) (product0 : Product)
  : list OrderItem :=
  match find (fun item => String.eqb (id (product item)) (id product0)) orderItems with
  | Some _ =>
      map (fun item =>
             if String.eqb (id (product item)) (id product0)
             then {| product := product item; quantity := quantity item + 1 |}
             else item) orderItems
  | None => orderItems ++ [ {| product := product0; quantity := 1 |} ]
  end.

(** [updateQuantity]. *)
Definition updateQuantity (orderItems : list OrderItem) (productId : string)
  (newQuantity : Z) : list OrderItem :=
  if (newQuantity =? 0)%Z
  then filter (fun item => negb (String.eqb (id (product item)) productId)) orderItems
  else map (fun item =>
              if String.eqb (id (product item)) productId
              then {| product := product item; quantity := newQuantity |}
              else item) orderItems.

(** [getTotalAmount]: [reduce] from 0, left to right. *)
Definition getTotalAmount (orderItems : list OrderItem) : num :=
  fold_left (fun total item => add total (mul (price (product item)) (of_int (quantity item))))
            orderItems zero.

(** The controls of the page that change the cart: a product card calls
    [addToOrder]; the minus and plus buttons of a cart line call
    [updateQuantity] with that line's quantity less or plus one. *)
Inductive CartEvent : Type :=
| ClickProduct (p : Product)
| ClickMinus (productId : string)
| ClickPlus (productId : string).

Definition line_quantity (orderItems : list OrderItem) (productId : string)
  : option Z :=
  option_map quantity
    (find (fun item => String.eqb (id (product item)) productId) orderItems).

Definition on_event (orderItems : list OrderItem) (e : CartEvent)
  : list OrderItem :=
  match e with
  | ClickProduct p => addToOrder orderItems p
  | ClickMinus productId =>
      match line_quantity orderItems productId with
      | Some q => updateQuantity orderItems productId (q - 1)
      | None => orderItems
      end
  | ClickPlus productId =>
      match line_quantity orderItems productId with
      | Some q => updateQuantity orderItems productId (q + 1)
      | None => orderItems
      end
  end.

(** *** Submission *)

Inductive OrderType : Type := dine_in | delivery.

(** The form fields held in the component's state, and the signed-in
    employee's profile identifier ([profile?.id]). *)
Record Form : Type := {
  orderItems : list OrderItem;
  orderType : OrderType;
  tableNumber : string;
  customerName : string;
  customerAddress : string;
  customerLocation : string;
  profile_id : option string
}.

(** The three validation toasts, under the names the specification gives
    them, with the description each one shows. *)
Inductive ValidationError : Type :=
| EmptyOrder
| MissingTableNumber
| MissingDeliveryInfo.

Definition toast_description (e : ValidationError) : string :=
  match e with
  | EmptyOrder => "Please add items to your order"
  | MissingTableNumber => "Please enter a table number for dine-in orders"
  | MissingDeliveryInfo => "Please fill in all delivery information"
  end.

(** [orderData], the row inserted into [orders]; [None] is [null]. *)
Record OrderData : Type := {
  employee_id : option string;
  order_type : OrderType;
  table_number : option float;
  customer_name : option string;
  customer_address : option string;
  customer_location : option string;
  total_amount : num;
  status : string
}.

(** One element of [orderItemsData], a row inserted into [order_items]. *)
Record OrderItemData : Type := {
  order_id : string;
  product_id : string;
  item_quantity : Z;
  unit_price : num;
  subtotal : num
}.

(** The two tables the submission writes, and the store's answers to the
    two inserts: the identifier of the created order or an error, then
    success or an error for the items. *)
Record Db : Type := {
  orders : list (string * OrderData);
  order_items : list OrderItemData
}.

Record Store : Type := {
  insert_order : OrderData -> option string;
  insert_items : list OrderItemData -> bool
}.

Inductive Outcome : Type :=
| Invalid (e : ValidationError)
| Failed
| Created (orderId : string).

(** [!s] on a string. *)
Definition is_empty (s : string) : bool := String.eqb s "".

Definition is_dine_in (t : OrderType) : bool :=
  match t with dine_in => true | delivery => false end.

Definition is_delivery (t : OrderType) : bool :=
  match t with delivery => true | dine_in => false end.

Definition make_orderData (f : Form) : OrderData := {|
  employee_id := profile_id f;
  order_type := orderType f;
  table_number :=
    if is_dine_in (orderType f) then Some (parseInt (tableNumber f)) else None;
  customer_name :=
    if is_delivery (orderType f) then Some (customerName f) else None;
  customer_address :=
    if is_delivery (orderType f) then Some (customerAddress f) else None;
  customer_location :=
    if is_delivery (orderType f) then Some (customerLocation f) else None;
  total_amount := getTotalAmount (orderItems f);
  status := "pending"
|}.

Definition make_orderItemsData (orderId : string) (items : list OrderItem)
  : list OrderItemData :=
  map (fun item => {|
         order_id := orderId;
         product_id := id (product item);
         item_quantity := quantity item;
         unit_price := price (product item);
         subtotal := mul (price (product item)) (of_int (quantity item))
       |}) items.

(** [handleSubmitOrder]: the three early returns, then the two inserts
    inside the [try]. *)
Definition handleSubmitOrder (store : Store) (f : Form) (db : Db)
  : Db * Outcome :=
  if (List.length (orderItems f) =? 0)%nat then (db, Invalid EmptyOrder)
  else if is_dine_in (orderType f) && is_empty (tableNumber f)
  then (db, Invalid MissingTableNumber)
  else if is_delivery (orderType f)
          && (is_empty (customerName f) || is_empty (customerAddress f)
              || is_empty (customerLocation f))
  then (db, Invalid MissingDeliveryInfo)
  else
    let orderData := make_orderData f in
    match insert_order store orderData with
    | None => (db, Failed)
    | Some oid =>
        let db1 := {| orders := orders db ++ [(oid, orderData)];
                      order_items := order_items db |} in
        let orderItemsData := make_orderItemsData oid (orderItems f) in
        if insert_items store orderItemsData
        then ({| orders := orders db1;
                 order_items := order_items db1 ++ orderItemsData |},
              Created oid)
        else (db1, Failed)
    end.

End WithNumber.
End CreateOrder.

(** ** The stored order and time

    A [created_at] value is an instant, counted in microseconds since the
    epoch (the resolution of the column); a JavaScript [Date] counts
    milliseconds.  A calendar date is the number of its day since the
    epoch, which stands for the date string the code builds
    ([toISOString().split('T')[0]], [toDateString()]). *)

Definition us_per_second : Z := 1000000.
Definition ms_per_day : Z := 86400000.

(** [new Date(created_at)]: the instant in milliseconds. *)
Definition new_Date (created_at : Z) : Z := created_at / 1000.

(** [date.toISOString().split('T')[0]]: the UTC date of a [Date]. *)
Definition iso_date (date : Z) : Z := date / ms_per_day.

(** The instants that the literals [`${d}T00:00:00`] and [`${d}T23:59:59`]
    denote in the store (session time zone UTC). *)
Definition T00_00_00 (d : Z) : Z := d * 86400 * us_per_second.
Definition T23_59_59 (d : Z) : Z := (d * 86400 + 86399) * us_per_second.

(** An instant of day [d] given as hours, minutes, seconds, microseconds. *)
Definition at_time (d h m s us : Z) : Z :=
  (d * 86400 + h * 3600 + m * 60 + s) * us_per_second + us.

Module Schema.
Section WithNumber.
Context {N : Number}.

(** A row of the [orders] table, the [*] of the pages' selects.  The
    bookkeeping column [updated_at], which a trigger of the store keeps,
    is left out.  The table holds the orders of all employees: every
    employee may read all of them. *)
Record OrderRow : Type := {
  id : string;
  order_type : CreateOrder.OrderType;
  table_number : option Z;
  customer_name : option string;
  customer_address : option string;
  customer_location : option string;
  total_amount : num;
  status : string;
  created_at : Z;
  employee_id : string
}.

(** [{ ...order, status: newStatus }] on the row's fields. *)
Definition with_status (r : OrderRow) (newStatus : string) : OrderRow := {|
  id := id r;
  order_type := order_type r;
  table_number := table_number r;
  customer_name := customer_name r;
  customer_address := customer_address r;
  customer_location := customer_location r;
  total_amount := total_amount r;
  status := newStatus;
  created_at := created_at r;
  employee_id := employee_id r
|}.

(** The check that the migration declares on the column:
    [status TEXT DEFAULT 'pending'
     CHECK (status IN ('pending', 'completed', 'cancelled'))]. *)
Definition status_check (status : string) : bool :=
  String.eqb status "pending" || String.eqb status "completed"
  || String.eqb status "cancelled".

(** The update policy of the table, "Employees can update their own
    orders": the row's [employee_id] is the profile of the signed-in
    user, [me]. *)
Definition own_order (me : string) (r : OrderRow) : bool :=
  String.eqb (employee_id r) me.

(** The rows that an update [.eq('id', orderId)] sent by [me] reaches. *)
Definition reached (me orderId : string) (r : OrderRow) : bool :=
  String.eqb (id r) orderId && own_order me r.

(** [.update({ status }).eq('id', orderId)] on the [orders] table, sent
    by the employee [me]; [None] is an answer with an [error].  The store
    updates the rows of that identifier that the policy lets the employee
    update and passes over the others without an error, so that an update
    which reaches no row is answered like one that wrote.  The statement
    fails, and writes nothing, when a row it reaches would break the
    check on [status]; [failure] stands for the failures that do not
    depend on the request (the network, an expired session). *)
Definition update_status (failure : bool) (me : string) (table : list OrderRow)
  (orderId newStatus : string) : option (list OrderRow) :=
  if failure then None
  else if existsb (reached me orderId) table && negb (status_check newStatus)
  then None
  else Some (map (fun r => if reached me orderId r
                           then with_status r newStatus else r) table).

(** [.gte('created_at', `${d}T00:00:00`).lt('created_at', `${d}T23:59:59`)]. *)
Definition in_day_window (d : Z) (r : OrderRow) : bool :=
  (T00_00_00 d <=? created_at r)%Z && (created_at r <? T23_59_59 d)%Z.

End WithNumber.
End Schema.

Inductive Toast : Type :=
| ToastSuccess (description : string)
| ToastError (description : string).

(** ** The orders page: [src/pages/Orders.tsx] *)

Module Orders.
Section WithNumber.
Context {N : Number}.

Record Profile : Type := {
  full_name : option string;
  email : string
}.

Record ItemLine : Type := {
  item_id : string;
  quantity : Z;
  product_name : string
}.

(** [interface Order]: the row with its joined profile and items. *)
Record Order : Type := {
  row : Schema.OrderRow;
  profiles : Profile;
  order_items : list ItemLine
}.

Definition id (order : Order) : string := Schema.id (row order).
Definition status (order : Order) : string := Schema.status (row order).

Definition with_status (order : Order) (newStatus : string) : Order := {|
  row := Schema.with_status (row order) newStatus;
  profiles := profiles order;
  order_items := order_items order
|}.

(** The page: the store's [orders] table and the [orders] state. *)
Record Page : Type := {
  table : list Schema.OrderRow;
  orders : list Order
}.

(** [updateOrderStatus], run by the employee [me] on the page [p].
    [rendered] is the value of the [orders] state in the render that
    created the handler: the closure maps over that value, not over the
    state at the time the store answers, and no button is disabled while
    a request is in flight.  When the store answers with no error the
    state is set and the success toast shown, whether or not a row was
    written. *)
Definition updateOrderStatus (failure : bool) (me : string)
  (rendered : list Order) (p : Page) (orderId newStatus : string)
  : Page * Toast :=
  match Schema.update_status failure me (table p) orderId newStatus with
  | None => (p, ToastError "Failed to update order status")
  | Some table' =>
      ({| table := table';
          orders := map (fun order =>
                           if String.eqb (id order) orderId
                           then with_status order newStatus else order)
                        rendered |},
       ToastSuccess ("Order status updated to " ++ newStatus))
  end.

(** The status buttons rendered on an order's card, each as the new status
    it passes to [updateOrderStatus]: "Start Preparation" on a pending
    order, "Mark Complete" on one in progress. *)
Definition status_buttons (order : Order) : list string :=
  (if String.eqb (status order) "pending" then ["in_progress"%string] else [])
  ++ (if String.eqb (status order) "in_progress" then ["completed"%string] else []).

(** *** Grouping by date

    [local_offset] is the browser's time zone: the offset, in
    milliseconds, of local time from UTC at an instant. *)
Section Grouping.
Variable local_offset : Z -> Z.

(** [new Date(order.created_at).toDateString()]: the local date. *)
Definition dateKey (order : Order) : Z :=
  let date := new_Date (Schema.created_at (row order)) in
  (date + local_offset date) / ms_per_day.

(** [if (!groups[dateKey]) groups[dateKey] = []; groups[dateKey].push(order)]
    on the object's entries, kept in insertion order. *)
Fixpoint push (groups : list (Z * list Order)) (key : Z) (order : Order)
  : list (Z * list Order) :=
  match groups with
  | [] => [(key, [order])]
  | (k, bucket) :: rest =>
      if (k =? key)%Z then (k, bucket ++ [order]) :: rest
      else (k, bucket) :: push rest key order
  end.

(** [new Date(key).getTime()]: midnight of that date, up to the zone's
    offset. *)
Definition getTime (key : Z) : Z := key * ms_per_day.

(** [Array.prototype.sort], a stable sort by a comparator: an element is
    placed before the first later element that the comparator does not
    order before it. *)
Fixpoint insert_by (A : Type) (cmp : A -> A -> Z) (x : A) (l : list A) : list A :=
  match l with
  | [] => [x]
  | y :: l' => if (cmp x y <=? 0)%Z then x :: l else y :: insert_by cmp x l'
  end.

Definition sort_by (A : Type) (cmp : A -> A -> Z) (l : list A) : list A :=
  fold_right (insert_by cmp) [] l.

Definition groupOrdersByDate (orders : list Order) : list (Z * list Order) :=
  let groups := fold_left (fun groups order => push groups (dateKey order) order)
                          orders [] in
  sort_by (fun a b => getTime (fst b) - getTime (fst a))%Z groups.

End Grouping.
End WithNumber.
End Orders.

(** ** The order summary page *)

Module OrderSummary.
Section WithNumber.
Context {N : Number}.

Record ItemLine : Type := {
  item_id : string;
  quantity : Z;
  unit_price : num;
  subtotal : num;
  product_id : string;
  product_name : string;
  product_image_url : option string
}.

(** [interface OrderDetails]. *)
Record OrderDetails : Type := {
  row : Schema.OrderRow;
  order_items : list ItemLine
}.

Definition status (order : OrderDetails) : string := Schema.status (row order).

Record Page : Type := {
  table : list Schema.OrderRow;
  order : option OrderDetails
}.

(** [handleCompleteOrder], run by the employee [me]. *)
Definition handleCompleteOrder (failure : bool) (me : string) (p : Page)
  : Page * option Toast :=
  match order p with
  | None => (p, None)
  | Some o =>
      match Schema.update_status failure me (table p) (Schema.id (row o))
                                 "completed" with
      | None => (p, Some (ToastError "Failed to complete order"))
      | Some table' =>
          ({| table := table';
              order := Some {| row := Schema.with_status (row o) "completed";
                               order_items := order_items o |} |},
           Some (ToastSuccess "Order marked as completed!"))
      end
  end.

(** The page shows its "Mark Complete" button, bound to
    [handleCompleteOrder], on a pending order. *)
Definition status_buttons (order : OrderDetails) : list string :=
  if String.eqb (status order) "pending" then ["completed"%string] else [].

End WithNumber.
End OrderSummary.

(** ** The dashboard statistics: [fetchStats] *)

Module Dashboard.
Section WithNumber.
Context {N : Number}.

Record Stats : Type := {
  totalOrders : Z;
  pendingOrders : Z;
  todayRevenue : num;
  activeProducts : Z
}.

(** The tables read: the orders, and the products with their active flag. *)
Record Db : Type := {
  orders : list Schema.OrderRow;
  products : list (CreateOrder.Product * bool)
}.

(** Whether the store answers each of the four selects; a select that is
    not answered leaves its [count] or [data] [null]. *)
Record Answers : Type := {
  total_answered : bool;
  pending_answered : bool;
  today_answered : bool;
  active_answered : bool
}.

(** [.select('*', { count: 'exact' })] over the rows kept by the filters. *)
Definition select_count (A : Type) (answered : bool) (rows : list A) : option Z :=
  if answered then Some (Z.of_nat (List.length rows)) else None.

(** [count || 0]. *)
Definition or_zero (count : option Z) : Z :=
  match count with
  | Some c => c
  | None => 0
  end.

(** [data?.reduce((sum, order) => sum + Number(order.total_amount), 0) || 0]. *)
Definition revenue (data : option (list Schema.OrderRow)) : num :=
  match data with
  | Some rows =>
      let sum := fold_left (fun sum order => add sum (Schema.total_amount order))
                           rows zero in
      if truthy sum then sum else zero
  | None => zero
  end.

(** [fetchStats]; [now] is [new Date()]. *)
Definition fetchStats (answers : Answers) (now : Z) (db : Db) : Stats :=
  let totalOrders := select_count (total_answered answers) (orders db) in
  let pendingOrders :=
    select_count (pending_answered answers)
      (filter (fun r => String.eqb (Schema.status r) "pending") (orders db)) in
  let today := iso_date now in
  let todayOrders :=
    if today_answered answers
    then Some (filter (Schema.in_day_window today) (orders db)) else None in
  let todayRevenue := revenue todayOrders in
  let activeProducts :=
    select_count (active_answered answers)
      (filter (fun p => snd p) (products db)) in
  {| totalOrders := or_zero totalOrders;
     pendingOrders := or_zero pendingOrders;
     todayRevenue := todayRevenue;
     activeProducts := or_zero activeProducts |}.

End WithNumber.
End Dashboard.

(** ** Sales reports: [generateSalesReport] of [src/hooks/useFileManager.tsx] *)

Module FileManager.
Section WithNumber.
Context {N : Number}.

Record FileUploadResult : Type := {
  path : string;
  url : string
}.

(** The rows selected for a report: an order with its joined items. *)
Record OrderItemRow : Type := {
  quantity : Z;
  unit_price : num;
  subtotal : num;
  product_name : string
}.

Record OrderWithItems : Type := {
  row : Schema.OrderRow;
  order_items : list OrderItemRow
}.

(** [reportData]. *)
Record ReportItem : Type := {
  product : string;
  item_quantity : Z;
  price : num
}.

Record ReportOrder : Type := {
  order_id : string;
  type : CreateOrder.OrderType;
  amount : num;
  items : list ReportItem
}.

Record ReportData : Type := {
  date : Z;
  totalOrders : Z;
  totalRevenue : num;
  report_orders : list ReportOrder
}.

(** A row of [sales_reports]: [id UUID DEFAULT gen_random_uuid() PRIMARY
    KEY], [report_date DATE NOT NULL] (no uniqueness constraint), the two
    totals, [file_path] and [report_data]. *)
Record SalesReport : Type := {
  id : string;
  report_date : Z;
  total_orders : Z;
  total_revenue : num;
  file_path : option string;
  report_data : option ReportData
}.

(** The object passed to [upsert]; [values_id] is its [id] field when it
    has one. *)
Record Values : Type := {
  values_id : option string;
  values_report_date : Z;
  values_total_orders : Z;
  values_total_revenue : num;
  values_report_data : ReportData
}.

(** [.upsert(values)] without [onConflict], as the store's client defines
    it: [INSERT ... ON CONFLICT (primary key) DO UPDATE], the primary key
    being [id].  A row sent without [id] takes the column default, a
    fresh [gen_random_uuid]. *)
Definition upsert (gen_random_uuid : string) (table : list SalesReport)
  (values : Values) : list SalesReport :=
  let key := match values_id values with
             | Some i => i
             | None => gen_random_uuid
             end in
  if existsb (fun r => String.eqb (id r) key) table
  then map (fun r =>
              if String.eqb (id r) key
              then {| id := key;
                      report_date := values_report_date values;
                      total_orders := values_total_orders values;
                      total_revenue := values_total_revenue values;
                      file_path := file_path r;
                      report_data := Some (values_report_data values) |}
              else r) table
  else table ++ [ {| id := key;
                     report_date := values_report_date values;
                     total_orders := values_total_orders values;
                     total_revenue := values_total_revenue values;
                     file_path := None;
                     report_data := Some (values_report_data values) |} ].

Record Db : Type := {
  orders_table : list OrderWithItems;
  sales_reports : list SalesReport
}.

(** The store's answers during one report generation. *)
Record Answers : Type := {
  query_error : bool;
  save_error : bool;
  gen_random_uuid : string;
  upload : option FileUploadResult
}.

(** [orders?.reduce((sum, order) => sum + Number(order.total_amount), 0) || 0]. *)
Definition revenue (orders : list OrderWithItems) : num :=
  let sum := fold_left (fun sum order => add sum (Schema.total_amount (row order)))
                       orders zero in
  if truthy sum then sum else zero.

Definition make_reportData (dateStr : Z) (orders : list OrderWithItems)
  : ReportData := {|
  date := dateStr;
  totalOrders := Z.of_nat (List.length orders);
  totalRevenue := revenue orders;
  report_orders :=
    map (fun order => {|
           order_id := Schema.id (row order);
           type := Schema.order_type (row order);
           amount := Schema.total_amount (row order);
           items := map (fun item => {| product := product_name item;
                                        item_quantity := quantity item;
                                        price := unit_price item |})
                        (order_items order) |}) orders
|}.

(** [generateSalesReport(date)]: the tables afterwards and the value
    returned ([None] is [null]). *)
Definition generateSalesReport (answers : Answers) (date : Z) (db : Db)
  : Db * option FileUploadResult :=
  let dateStr := iso_date date in
  if query_error answers then (db, None)
  else
    let orders := filter (fun o => Schema.in_day_window dateStr (row o)) (orders_table db) in
    let reportData := make_reportData dateStr orders in
    if save_error answers then (db, None)
    else
      ({| orders_table := orders_table db;
          sales_reports :=
            upsert (gen_random_uuid answers) (sales_reports db)
              {| values_id := None;
                 values_report_date := dateStr;
                 values_total_orders := totalOrders reportData;
                 values_total_revenue := totalRevenue reportData;
                 values_report_data := reportData |} |},
       upload answers).

End WithNumber.
End FileManager.

(** ** Notions used by the statements *)

(** The position of a status in [pending], [in_progress], [completed];
    any other value (the schema's [cancelled]) comes last. *)
Definition rank (status : string) : Z :=
  if String.eqb status "pending" then 0
  else if String.eqb status "in_progress" then 1
  else if String.eqb status "completed" then 2
  else 3.

(** A transition to the immediate next state. *)
Definition single_step (from to : string) : Prop :=
  (from = "pending"%string /\ to = "in_progress"%string)
  \/ (from = "in_progress"%string /\ to = "completed"%string).

(** The sum of a list of amounts, from 0, left to right. *)
Definition sum_of {N : Number} (l : list num) : num := fold_left add l zero.

(** The product identifier of a cart line. *)
Definition line_id {N : Number} (item : CreateOrder.OrderItem) : string :=
  CreateOrder.id (CreateOrder.product item).

(** How many times a product identifier occurs in a sequence of products. *)
Definition times_added {N : Number} (products : list CreateOrder.Product)
  (productId : string) : nat :=
  count_occ string_dec (map CreateOrder.id products) productId.

(** The amount of a cart line: unit price times quantity. *)
Definition amount {N : Number} (item : CreateOrder.OrderItem) : num :=
  mul (CreateOrder.price (CreateOrder.product item))
      (of_int (CreateOrder.quantity item)).

(** A menu of three products priced in doubles. *)
Definition menu_item {N : Number} (i : string) (p : @num N) : @CreateOrder.Product N :=
  @CreateOrder.Build_Product N i i p None None.

Definition pizza : @CreateOrder.Product js_number :=
  menu_item (N:=js_number) "margherita" (of_cents 1299).
Definition soda : @CreateOrder.Product js_number :=
  menu_item (N:=js_number) "soda" (of_cents 299).
Definition fries : @CreateOrder.Product js_number :=
  menu_item (N:=js_number) "fries" (of_cents 450).

Definition line {N : Number} (p : @CreateOrder.Product N) (q : Z)
  : @CreateOrder.OrderItem N :=
  @CreateOrder.Build_OrderItem N p q.

(** The store used in the examples: it accepts both inserts and names
    the new order [order-1]. *)
Definition accepting_store : @CreateOrder.Store js_number :=
  @CreateOrder.Build_Store js_number (fun _ => Some "order-1"%string) (fun _ => true).

Definition empty_db : @CreateOrder.Db js_number :=
  @CreateOrder.Build_Db js_number [] [].

Definition dine_in_form (cart : list (@CreateOrder.OrderItem js_number))
  (tableNumber : string) : @CreateOrder.Form js_number :=
  @CreateOrder.Build_Form js_number cart CreateOrder.dine_in tableNumber
                          "" "" "" (Some "employee-1"%string).

(** Two rows that agree on every field but [status]. *)
Definition same_but_status {N : Number} (r r' : Schema.OrderRow) : Prop :=
  Schema.id r' = Schema.id r
  /\ Schema.order_type r' = Schema.order_type r
  /\ Schema.table_number r' = Schema.table_number r
  /\ Schema.customer_name r' = Schema.customer_name r
  /\ Schema.customer_address r' = Schema.customer_address r
  /\ Schema.customer_location r' = Schema.customer_location r
  /\ Schema.total_amount r' = Schema.total_amount r
  /\ Schema.created_at r' = Schema.created_at r
  /\ Schema.employee_id r' = Schema.employee_id r.

(** What the page does to its copy of a row when a status write is
    answered with no error: the copies of the order take the new status
    and keep their other fields; the other copies are untouched. *)
Definition status_written {N : Number} (orderId newStatus : string)
  (r r' : Schema.OrderRow) : Prop :=
  (Schema.id r = orderId ->
     Schema.status r' = newStatus /\ same_but_status r r')
  /\ (Schema.id r <> orderId -> r' = r).

(** A stored row of the order [orderId] that belongs to the employee
    [me]. *)
Definition own_row_of {N : Number} (me orderId : string) (r : Schema.OrderRow)
  : Prop :=
  Schema.id r = orderId /\ Schema.employee_id r = me.

(** What a status write that the store carries out does to one stored
    row: a row of the order that belongs to the employee takes the new
    status and keeps its other fields; every other row is untouched. *)
Definition status_written_by {N : Number} (me orderId newStatus : string)
  (r r' : Schema.OrderRow) : Prop :=
  (own_row_of me orderId r ->
     Schema.status r' = newStatus /\ same_but_status r r')
  /\ (~ own_row_of me orderId r -> r' = r).

(** The status writes that the store answers with an error: any write
    during a failure, and a write of a status outside the column's check
    on an order of the employee's own. *)
Definition refused {N : Number} (failure : bool) (me : string)
  (table : list Schema.OrderRow) (orderId newStatus : string) : Prop :=
  failure = true
  \/ (Schema.status_check newStatus = false
      /\ Exists (own_row_of me orderId) table).

(** What pressing a status button, rendered for the row [shown] and
    asking for the status [t], may do to a stored row: nothing, or, on a
    row of that order, the write of [t] with the other fields kept, which
    raises the status whenever the page showed the stored one. *)
Definition pressed {N : Number} (shown : Schema.OrderRow) (t : string)
  (r r' : Schema.OrderRow) : Prop :=
  r' = r
  \/ (Schema.id r = Schema.id shown
      /\ Schema.status r' = t
      /\ same_but_status r r'
      /\ (Schema.status r = Schema.status shown ->
          (rank (Schema.status r) < rank (Schema.status r'))%Z)).

(** A pending dine-in order of 28.97 at table 5, created at [created_at]. *)
Definition sample_row (i status : string) (created_at : Z)
  : @Schema.OrderRow js_number :=
  @Schema.Build_OrderRow js_number i CreateOrder.dine_in (Some 5%Z) None None None
                         (of_cents 2897) status created_at "employee-1".

(** The same order taken by a colleague. *)
Definition colleague_row (i status : string) (created_at : Z)
  : @Schema.OrderRow js_number :=
  @Schema.Build_OrderRow js_number i CreateOrder.dine_in (Some 5%Z) None None None
                         (of_cents 2897) status created_at "employee-2".

(** The local time of an order's creation, in milliseconds: the instant
    shifted by the browser's offset from UTC at that instant. *)
Definition local_time {N : Number} (local_offset : Z -> Z) (o : Orders.Order) : Z :=
  (new_Date (Schema.created_at (Orders.row o))
   + local_offset (new_Date (Schema.created_at (Orders.row o))))%Z.

(** The order was created on the local calendar day [day], counted in
    days since the epoch: its local time lies between the midnight that
    starts the day and the next one. *)
Definition on_local_day {N : Number} (local_offset : Z -> Z) (day : Z)
  (o : Orders.Order) : bool :=
  (day * ms_per_day <=? local_time local_offset o)%Z
  && (local_time local_offset o <? (day + 1) * ms_per_day)%Z.

(** The groups built by the [forEach] loop of [groupOrdersByDate]. *)
Definition groups_of {N : Number} (local_offset : Z -> Z)
  (orders : list Orders.Order) : list (Z * list Orders.Order) :=
  fold_left (fun groups order =>
               Orders.push groups (Orders.dateKey local_offset order) order)
            orders [].

(** A bucket holds, in the order given, the orders of its date. *)
Definition bucket_of_date {N : Number} (local_offset : Z -> Z)
  (orders : list Orders.Order) (g : Z * list Orders.Order) : Prop :=
  snd g = filter (fun o => (Orders.dateKey local_offset o =? fst g)%Z) orders
  /\ snd g <> [].

(** The comparator passed to [sort]. *)
Definition by_date_descending {N : Number} (a b : Z * list Orders.Order) : Z :=
  (Orders.getTime (fst b) - Orders.getTime (fst a))%Z.

(** [a] stands before [b] when its date is the later one. *)
Definition later {N : Number} (a b : Z * list Orders.Order) : Prop :=
  (fst b < fst a)%Z.

(** The store answers the four selects of [fetchStats]. *)
Definition all_answered : Dashboard.Answers :=
  {| Dashboard.total_answered := true;
     Dashboard.pending_answered := true;
     Dashboard.today_answered := true;
     Dashboard.active_answered := true |}.

Definition is_pending {N : Number} (r : Schema.OrderRow) : bool :=
  String.eqb (Schema.status r) "pending".

(** A sum that is replaced by 0 when it is falsy: [sum || 0]. *)
Definition sum_or_zero {N : Number} (l : list num) : num :=
  if truthy (sum_of l) then sum_of l else zero.

(** The reference day of the examples, and instants of it. *)
Definition ref_day : Z := 20000.
Definition ref_noon_ms : Z := at_time ref_day 12 0 0 0 / 1000.

Definition dashboard_db (rows : list (@Schema.OrderRow js_number))
  : @Dashboard.Db js_number :=
  @Dashboard.Build_Db js_number rows [].

(** The store's answers to a report generation that goes through, the
    new row being given identifier [uuid]. *)
Definition report_saved (uuid : string) : FileManager.Answers :=
  {| FileManager.query_error := false;
     FileManager.save_error := false;
     FileManager.gen_random_uuid := uuid;
     FileManager.upload := None |}.

(** An order of the orders page, created at [created_at]. *)
Definition sample_order (i : string) (created_at : Z) : @Orders.Order js_number :=
  @Orders.Build_Order js_number (sample_row i "pending" created_at)
                      (Orders.Build_Profile None "employee@example.com") [].

(** A browser five hours behind UTC. *)
Definition utc_minus_5 (date : Z) : Z := -5 * 3600000.

(** ** Notions used by the further properties *)

(** The decimal writing of a natural number, as a numeric input field
    holds it. *)
Definition decimal (n : nat) : string := NilZero.string_of_uint (Nat.to_uint n).

(** A string that is empty or starts with a character that is neither a
    digit nor a letter (a point, a space). *)
Definition not_alphanumeric_start (rest : string) : bool :=
  match rest with
  | EmptyString => true
  | String c _ => match digit_value c with Some _ => false | None => true end
  end.

(** Every stored item row belongs to a stored order. *)
Definition items_have_orders {N : Number} (db : CreateOrder.Db) : Prop :=
  Forall (fun r => In (CreateOrder.order_id r) (map fst (CreateOrder.orders db)))
         (CreateOrder.order_items db).

(** ** Further code of the orders page *)

(** [s.toLowerCase()] on ASCII text (order identifiers are UUIDs). *)
Definition lower_ascii (c : ascii) : ascii :=
  let n := nat_of_ascii c in
  if ((65 <=? n) && (n <=? 90))%nat then ascii_of_nat (n + 32) else c.

Fixpoint toLowerCase (s : string) : string :=
  match s with
  | String c rest => String (lower_ascii c) (toLowerCase rest)
  | EmptyString => EmptyString
  end.

(** [s.includes(q)]: [q] occurs somewhere in [s]. *)
Fixpoint includes (s q : string) : bool :=
  String.prefix q s
  || match s with
     | String _ rest => includes rest q
     | EmptyString => false
     end.

(** [s.slice(0, 8)]. *)
Definition slice_0_8 (s : string) : string := String.substring 0 8 s.

Module OrdersList.
Section WithNumber.
Context {N : Number}.

(** The value of [order.order_type] as the filter compares it. *)
Definition order_type_name (t : CreateOrder.OrderType) : string :=
  match t with
  | CreateOrder.dine_in => "dine_in"
  | CreateOrder.delivery => "delivery"
  end.

(** [filteredOrders], for the three pieces of filter state. *)
Definition filteredOrders (statusFilter typeFilter searchQuery : string)
  (orders : list Orders.Order) : list Orders.Order :=
  filter (fun order =>
            if negb (String.eqb statusFilter "all")
               && negb (String.eqb (Orders.status order) statusFilter)
            then false
            else if negb (String.eqb typeFilter "all")
                    && negb (String.eqb
                               (order_type_name (Schema.order_type (Orders.row order)))
                               typeFilter)
            then false
            else if negb (CreateOrder.is_empty searchQuery)
                    && negb (includes (toLowerCase (Orders.id order))
                                      (toLowerCase searchQuery))
            then false
            else true) orders.

(** The order number a card shows: [Order #{order.id.slice(0, 8)}]. *)
Definition shown_number (order : Orders.Order) : string :=
  slice_0_8 (Orders.id order).

(** The item lines a card lists, [order_items.slice(0, 3)], and the count
    of its "... and n more items" line, shown when there are more than
    three. *)
Definition shown_items (order : Orders.Order) : list Orders.ItemLine :=
  firstn 3 (Orders.order_items order).

Definition more_items (order : Orders.Order) : option nat :=
  let n := List.length (Orders.order_items order) in
  if (3 <? n)%nat then Some (n - 3)%nat else None.

End WithNumber.
End OrdersList.



(** Orders listed with the latest local date first, as they are when
    fetched newest first. *)
Definition latest_date_first {N : Number} (local_offset : Z -> Z)
  (orders : list Orders.Order) : Prop :=
  StronglySorted (fun a b =>
                    (Orders.dateKey local_offset b <= Orders.dateKey local_offset a)%Z)
                 orders.


(** The page's copy of the orders shows the stored rows. *)
Definition page_in_sync {N : Number} (p : Orders.Page) : Prop :=
  map Orders.row (Orders.orders p) = Orders.table p.

(** ** The catalog: products offered and products deactivated *)

Module Catalog.
Section WithNumber.
Context {N : Number}.

(** The [products] table: each product with its [is_active] flag. *)
Definition Table : Type := list (CreateOrder.Product * bool).

(** The store's collation of product names, as [.order('name')] uses it:
    negative when the first name comes first. *)
Variable name_cmp : string -> string -> Z.

(** [fetchProducts] of the order form and of the dashboard:
    [.select('*').eq('is_active', true).order('name')]; on an error the
    [products] state is left as it was. *)
Definition fetchProducts (error : bool) (table : Table)
  (products : list CreateOrder.Product) : list CreateOrder.Product * option Toast :=
  if error then (products, Some (ToastError "Failed to load products"))
  else
    (Orders.sort_by (fun a b => name_cmp (CreateOrder.name a) (CreateOrder.name b))
                    (map fst (filter snd table)),
     None).

(** [handleDeleteProduct] of the admin page:
    [.update({ is_active: false }).eq('id', productId)]. *)
Definition handleDeleteProduct (error : bool) (table : Table) (productId : string)
  : Table * Toast :=
  if error then (table, ToastError "Failed to deactivate product")
  else
    (map (fun row =>
            if String.eqb (CreateOrder.id (fst row)) productId
            then (fst row, false) else row) table,
     ToastSuccess "Product deactivated successfully").

End WithNumber.
End Catalog.

(** ** Product listings: [exportProductListing] *)

Module Listings.
Section WithNumber.
Context {N : Number}.

(** One product of the exported document. *)
Record ListingProduct : Type := {
  id : string;
  name : string;
  price : num;
  description : option string;
  image_url : option string;
  is_active : bool
}.

(** [listingData]; [exportDate] is the instant of the export. *)
Record ListingData : Type := {
  exportDate : Z;
  products : list ListingProduct
}.

(** A row of [product_listings] as the export inserts it. *)
Record ProductListing : Type := {
  listing_name : string;
  file_path : string;
  listing_data : ListingData
}.

(** The store's answers during an export: the upload, then whether the
    insert of the record is refused. *)
Record Answers : Type := {
  upload : option FileManager.FileUploadResult;
  insert_refused : bool
}.

(** The file name, [`product-listing-${date}.json`], as a function of the
    UTC date of the export. *)
Variable file_name : Z -> string.

(** [exportProductListing(products)]; [now] is [new Date()].  The result
    of the insert is not looked at. *)
Definition exportProductListing (answers : Answers) (now : Z)
  (products0 : Catalog.Table) (table : list ProductListing)
  : list ProductListing * option FileManager.FileUploadResult :=
  let listingData := {|
    exportDate := now;
    products := map (fun product => {|
                       id := CreateOrder.id (fst product);
                       name := CreateOrder.name (fst product);
                       price := CreateOrder.price (fst product);
                       description := CreateOrder.description (fst product);
                       image_url := CreateOrder.image_url (fst product);
                       is_active := snd product |}) products0 |} in
  let fileName := file_name (iso_date now) in
  let uploadResult := upload answers in
  match uploadResult with
  | Some result =>
      (if insert_refused answers then table
       else table ++ [ {| listing_name := fileName;
                          file_path := FileManager.path result;
                          listing_data := listingData |} ],
       uploadResult)
  | None => (table, uploadResult)
  end.

End WithNumber.
End Listings.

(** ** Sample data of the further properties *)

(** A delivery form for a cart. *)
Definition delivery_form (cart : list (@CreateOrder.OrderItem js_number))
  : @CreateOrder.Form js_number :=
  @CreateOrder.Build_Form js_number cart CreateOrder.delivery ""
                          "Ada" "1 Canal Street" "Second floor"
                          (Some "employee-1"%string).

(** An order of the orders page whose row is [r]. *)
Definition order_of_row (r : @Schema.OrderRow js_number) : @Orders.Order js_number :=
  @Orders.Build_Order js_number r
                      (Orders.Build_Profile None "employee@example.com") [].

(** Three clicks: a pizza, a soda, and plus on the pizza. *)
Definition three_clicks : list (@CreateOrder.CartEvent js_number) :=
  [ CreateOrder.ClickProduct pizza; CreateOrder.ClickProduct soda;
    CreateOrder.ClickPlus "margherita" ].

(** * Theorems *)

(** ** The cart *)

Section CartFacts.
Context {N : Number}.
Import CreateOrder.

Lemma fold_left_snoc (A B : Type) (f : A -> B -> A) (l : list B) (x : B) (a : A) :
  fold_left f (l ++ [x]) a = f (fold_left f l a) x.
Proof. now rewrite fold_left_app. Qed.

Lemma find_line_none (cart : list OrderItem) (i : string) :
  find (fun item => String.eqb (id (product item)) i) cart = None ->
  ~ In i (map line_id cart).
Proof.
  intros Hnone Hin. apply in_map_iff in Hin as (item & Hid & Hitem).
  apply (find_none _ _ Hnone) in Hitem. simpl in Hitem.
  unfold line_id in Hid. rewrite Hid, String.eqb_refl in Hitem. discriminate.
Qed.

Lemma find_line_some (cart : list OrderItem) (i : string) (item : OrderItem) :
  find (fun item => String.eqb (id (product item)) i) cart = Some item ->
  In i (map line_id cart).
Proof.
  intros Hsome. apply find_some in Hsome as (Hin & Heq).
  apply String.eqb_eq in Heq. apply in_map_iff. now exists item.
Qed.

Lemma map_line_id_set (cart : list OrderItem) (i : string) (g : OrderItem -> Z) :
  map line_id
      (map (fun item =>
              if String.eqb (id (product item)) i
              then {| product := product item; quantity := g item |}
              else item) cart)
  = map line_id cart.
Proof.
  rewrite map_map. apply map_ext. intros item.
  now destruct (String.eqb (id (product item)) i).
Qed.

Lemma times_added_snoc (ps : list Product) (p : Product) (i : string) :
  times_added (ps ++ [p]) i
  = (times_added ps i + (if String.eqb (id p) i then 1 else 0))%nat.
Proof.
  unfold times_added. rewrite map_app, count_occ_app. simpl.
  destruct (string_dec (id p) i) as [->|Hne].
  - now rewrite String.eqb_refl.
  - apply String.eqb_neq in Hne. now rewrite Hne.
Qed.

Lemma times_added_zero (ps : list Product) (i : string) :
  ~ In i (map id ps) -> times_added ps i = 0%nat.
Proof. intros H. now apply count_occ_not_In. Qed.

Lemma addToOrder_new (cart : list OrderItem) (p : Product) :
  ~ In (id p) (map line_id cart) ->
  addToOrder cart p = cart ++ [ {| product := p; quantity := 1 |} ].
Proof.
  intros Hnew. unfold addToOrder.
  destruct (find (fun item => String.eqb (id (product item)) (id p)) cart)
    eqn:Hfind; [|reflexivity].
  apply find_line_some in Hfind. contradiction.
Qed.

Lemma addToOrder_again (cart : list OrderItem) (p : Product) :
  In (id p) (map line_id cart) ->
  List.length (addToOrder cart p) = List.length cart.
Proof.
  intros Hin. unfold addToOrder.
  destruct (find (fun item => String.eqb (id (product item)) (id p)) cart)
    eqn:Hfind.
  - now rewrite length_map.
  - apply find_line_none in Hfind. contradiction.
Qed.

(** C6. After any sequence of [addToOrder] calls on an empty cart, the
    cart has one line per distinct product identifier added, and each
    line's quantity is the number of times its product was added; a
    product not yet in the cart is appended with quantity 1, a product
    already there has its quantity incremented and no line is added. *)
Theorem addToOrder_one_line_per_product (ps : list Product) :
  let cart := fold_left addToOrder ps [] in
  NoDup (map line_id cart)
  /\ (forall i, In i (map line_id cart) <-> In i (map id ps))
  /\ Forall (fun item =>
               quantity item = Z.of_nat (times_added ps (line_id item))) cart
  /\ (forall p, ~ In (id p) (map line_id cart) ->
                addToOrder cart p = cart ++ [ {| product := p; quantity := 1 |} ])
  /\ (forall p, In (id p) (map line_id cart) ->
                List.length (addToOrder cart p) = List.length cart).
Proof.
  induction ps as [|p ps IH] using rev_ind; simpl.
  - repeat split; try constructor; try tauto.
  - rewrite fold_left_snoc. destruct IH as (Hnd & Hids & Hq & _ & _).
    set (cart := fold_left addToOrder ps []) in *.
    assert (Hstep :
      NoDup (map line_id (addToOrder cart p))
      /\ (forall i, In i (map line_id (addToOrder cart p))
                    <-> In i (map id (ps ++ [p])))
      /\ Forall (fun item =>
                   quantity item
                   = Z.of_nat (times_added (ps ++ [p]) (line_id item)))
                (addToOrder cart p)).
    { unfold addToOrder.
      destruct (find (fun item => String.eqb (id (product item)) (id p)) cart)
        as [found|] eqn:Hfind.
      - apply find_line_some in Hfind.
        rewrite map_line_id_set. split; [exact Hnd|]. split.
        + intros i. rewrite Hids, map_app, in_app_iff. simpl.
          split; [tauto|]. intros [H|[<-|[]]]; [exact H|]. now apply Hids.
        + rewrite Forall_map. eapply Forall_impl; [|exact Hq].
          intros item Hitem. rewrite !times_added_snoc.
          unfold line_id in *.
          destruct (String.eqb (id (product item)) (id p)) eqn:E; simpl.
          * apply String.eqb_eq in E. rewrite E, String.eqb_refl in *. lia.
          * rewrite String.eqb_sym, E. lia.
      - apply find_line_none in Hfind.
        rewrite map_app. simpl. split; [|split].
        + apply NoDup_app_remove_l with (l := []). simpl.
          apply Permutation_NoDup with (l := line_id {| product := p; quantity := 1 |}
                                              :: map line_id cart).
          * apply Permutation_cons_append.
          * constructor; assumption.
        + intros i. rewrite !map_app, !in_app_iff, Hids. simpl. tauto.
        + apply Forall_app. split.
          * eapply Forall_forall. intros item Hin.
            rewrite Forall_forall in Hq. rewrite (Hq item Hin), times_added_snoc.
            destruct (String.eqb (id p) (line_id item)) eqn:E; [|lia].
            apply String.eqb_eq in E. exfalso. apply Hfind. rewrite E.
            now apply in_map.
          * constructor; [|constructor]. simpl.
            rewrite times_added_snoc. unfold line_id at 1. simpl.
            rewrite String.eqb_refl, times_added_zero; [reflexivity|].
            intros H. apply Hfind. now apply Hids. }
    destruct Hstep as (H1 & H2 & H3). repeat split; try assumption;
      try (now apply H2).
    + intros q Hq'. now apply addToOrder_new.
    + intros q Hq'. now apply addToOrder_again.
Qed.

End CartFacts.

(** Three pizzas, a soda and fries, added in any order of clicks. *)
Example addToOrder_five_clicks :
  map (fun item => (line_id item, CreateOrder.quantity item))
      (fold_left CreateOrder.addToOrder [pizza; soda; pizza; fries; pizza] [])
  = [ ("margherita", 3); ("soda", 1); ("fries", 1) ]%string%Z.
Proof. reflexivity. Qed.

Section QuantityFacts.
Context {N : Number}.
Import CreateOrder.

Lemma line_quantity_in (cart : list OrderItem) (i : string) (q : Z) :
  line_quantity cart i = Some q ->
  exists item, In item cart /\ quantity item = q.
Proof.
  unfold line_quantity. intros H.
  destruct (find (fun item => String.eqb (id (product item)) i) cart)
    as [item|] eqn:Hfind; [|discriminate].
  apply find_some in Hfind as [Hin _]. exists item. split; [exact Hin|].
  simpl in H. congruence.
Qed.

Lemma updateQuantity_positive (cart : list OrderItem) (i : string) (n : Z) :
  (1 <= n)%Z ->
  Forall (fun item => (1 <= quantity item)%Z) cart ->
  Forall (fun item => (1 <= quantity item)%Z) (updateQuantity cart i n).
Proof.
  intros Hn Hcart. unfold updateQuantity.
  destruct (Z.eqb_spec n 0) as [->|_]; [lia|].
  rewrite Forall_map. eapply Forall_impl; [|exact Hcart].
  intros item Hitem. now destruct (String.eqb (id (product item)) i).
Qed.

Lemma updateQuantity_zero_positive (cart : list OrderItem) (i : string) :
  Forall (fun item => (1 <= quantity item)%Z) cart ->
  Forall (fun item => (1 <= quantity item)%Z) (updateQuantity cart i 0).
Proof.
  intros Hcart. unfold updateQuantity. simpl. rewrite Forall_forall in *.
  intros item Hin. apply filter_In in Hin as [Hin _]. now apply Hcart.
Qed.

Lemma on_event_positive (cart : list OrderItem) (e : CartEvent) :
  Forall (fun item => (1 <= quantity item)%Z) cart ->
  Forall (fun item => (1 <= quantity item)%Z) (on_event cart e).
Proof.
  intros Hcart. destruct e as [p|i|i]; simpl.
  - unfold addToOrder.
    destruct (find (fun item => String.eqb (id (product item)) (id p)) cart).
    + rewrite Forall_map. eapply Forall_impl; [|exact Hcart].
      intros item Hitem. simpl in Hitem.
      destruct (String.eqb (id (product item)) (id p)); simpl; lia.
    + apply Forall_app. split; [exact Hcart|].
      constructor; [simpl; lia|constructor].
  - destruct (line_quantity cart i) as [q|] eqn:Hq; [|exact Hcart].
    apply line_quantity_in in Hq as (item & Hin & <-).
    rewrite Forall_forall in Hcart. pose proof (Hcart item Hin) as Hge.
    destruct (Z.eq_dec (quantity item) 1) as [->|Hne].
    + apply updateQuantity_zero_positive. now apply Forall_forall.
    + apply updateQuantity_positive; [lia|]. now apply Forall_forall.
  - destruct (line_quantity cart i) as [q|] eqn:Hq; [|exact Hcart].
    apply line_quantity_in in Hq as (item & Hin & <-).
    rewrite Forall_forall in Hcart. pose proof (Hcart item Hin) as Hge.
    apply updateQuantity_positive; [lia|]. now apply Forall_forall.
Qed.

(** C8, as the code has it.  [updateQuantity] with 0 removes the lines of
    the product and keeps the others; with any other value, negative
    ones included, it stores that value as the quantity of the product's
    lines and changes nothing else: there is no rejection.  The page's
    own controls (a product card, the minus and plus buttons of a line)
    only ever lead to carts whose quantities are all at least 1. *)
Theorem updateQuantity_removes_or_stores (cart : list OrderItem)
  (productId : string) (n : Z) (events : list CartEvent) :
  let cart' := updateQuantity cart productId n in
  (n = 0%Z ->
     ~ In productId (map line_id cart')
     /\ cart' = filter (fun item => negb (String.eqb (line_id item) productId)) cart)
  /\ (n <> 0%Z ->
        map line_id cart' = map line_id cart
        /\ map product cart' = map product cart
        /\ Forall (fun item => line_id item = productId -> quantity item = n) cart'
        /\ Forall2 (fun item item' => line_id item <> productId -> item' = item)
                   cart cart')
  /\ Forall (fun item => (1 <= quantity item)%Z) (fold_left on_event events []).
Proof.
  simpl. split; [|split].
  - intros ->. unfold updateQuantity. simpl. split; [|reflexivity].
    intros Hin. apply in_map_iff in Hin as (item & Hid & Hin).
    apply filter_In in Hin as [_ Hneg]. unfold line_id in Hid.
    rewrite Hid, String.eqb_refl in Hneg. discriminate.
  - intros Hn. unfold updateQuantity.
    destruct (Z.eqb_spec n 0) as [|_]; [contradiction|].
    repeat split.
    + apply map_line_id_set.
    + rewrite map_map. apply map_ext. intros item.
      now destruct (String.eqb (id (product item)) productId).
    + rewrite Forall_map. apply Forall_forall. intros item _.
      unfold line_id.
      destruct (String.eqb (id (product item)) productId) eqn:E; simpl.
      * reflexivity.
      * intros Heq. rewrite Heq, String.eqb_refl in E. discriminate.
    + induction cart as [|item cart IH]; simpl; constructor; [|exact IH].
      unfold line_id.
      destruct (String.eqb (id (product item)) productId) eqn:E.
      * apply String.eqb_eq in E. intros Hne. contradiction.
      * reflexivity.
  - induction events as [|e events IH] using rev_ind; simpl.
    + constructor.
    + rewrite fold_left_snoc. now apply on_event_positive.
Qed.

(** [getTotalAmount] is the sum of the lines' amounts. *)
Lemma getTotalAmount_fold (cart : list OrderItem) (a : num) :
  fold_left (fun total item =>
               add total (mul (price (product item)) (of_int (quantity item))))
            cart a
  = fold_left add
      (map (fun item => mul (price (product item)) (of_int (quantity item))) cart) a.
Proof.
  revert a. induction cart as [|item cart IH]; intros a; simpl.
  - reflexivity.
  - apply IH.
Qed.

End QuantityFacts.

(** Addition of doubles is commutative, and so is a sum of two amounts
    started from 0. *)
Lemma SFadd_comm (x y : spec_float) :
  SFadd prec emax x y = SFadd prec emax y x.
Proof.
  destruct x as [[]|[]| |sx mx ex], y as [[]|[]| |sy my ey]; try reflexivity.
  unfold SFadd. rewrite Z.min_comm. f_equal. apply Z.add_comm.
Qed.

Lemma SFadd_from_zero_swap (x y : spec_float) :
  SFadd prec emax (SFadd prec emax (S754_zero false) x) y
  = SFadd prec emax (SFadd prec emax (S754_zero false) y) x.
Proof.
  destruct x as [[]|[]| |sx mx ex], y as [[]|[]| |sy my ey]; try reflexivity.
  unfold SFadd. rewrite Z.min_comm. f_equal. apply Z.add_comm.
Qed.

Lemma float_add_comm (x y : float) : PrimFloat.add x y = PrimFloat.add y x.
Proof.
  apply Prim2SF_inj. rewrite !FloatAxioms.add_spec. apply SFadd_comm.
Qed.

Lemma float_sum_of_two (x y : float) :
  PrimFloat.add (PrimFloat.add 0 x) y = PrimFloat.add (PrimFloat.add 0 y) x.
Proof.
  apply Prim2SF_inj. rewrite !FloatAxioms.add_spec.
  change (Prim2SF 0) with (S754_zero false).
  apply SFadd_from_zero_swap.
Qed.

(** C4, as the code has it, on the doubles it runs on.  [getTotalAmount]
    is the sum, from 0 and in cart order, of unit price times quantity
    over the lines, with no rounding step.  A cart of one or two lines
    has the same total in whichever order its lines were entered;
    with the same first two lines swapped, any cart has the same total. *)
Theorem getTotalAmount_sums_in_cart_order
  (cart cart' rest : list (@CreateOrder.OrderItem js_number))
  (a b : @CreateOrder.OrderItem js_number) :
  CreateOrder.getTotalAmount cart
  = fold_left PrimFloat.add (map amount cart) 0%float
  /\ (Permutation cart cart' -> (List.length cart <= 2)%nat ->
      CreateOrder.getTotalAmount cart = CreateOrder.getTotalAmount cart')
  /\ CreateOrder.getTotalAmount (a :: b :: rest)
     = CreateOrder.getTotalAmount (b :: a :: rest).
Proof.
  assert (Hswap : forall (x y : @CreateOrder.OrderItem js_number) l,
             CreateOrder.getTotalAmount (x :: y :: l)
             = CreateOrder.getTotalAmount (y :: x :: l)).
  { intros x y l. unfold CreateOrder.getTotalAmount. simpl.
    now rewrite float_sum_of_two. }
  split; [|split].
  - unfold CreateOrder.getTotalAmount.
    apply (@getTotalAmount_fold js_number).
  - intros Hperm Hlen.
    destruct cart as [|x [|y [|z cart]]]; simpl in Hlen; [| | |lia].
    + apply Permutation_nil in Hperm. now subst.
    + apply Permutation_length_1_inv in Hperm. now subst.
    + apply Permutation_length_2_inv in Hperm as [->| ->];
        [reflexivity|apply Hswap].
  - apply Hswap.
Qed.

(** C4 applied to two pizzas and a soda, entered in either order: 28.97. *)
Lemma getTotalAmount_sums_in_cart_order_witness :
  let cart := [line pizza 2; line soda 1] in
  let cart' := [line soda 1; line pizza 2] in
  CreateOrder.getTotalAmount cart = of_cents 2897
  /\ CreateOrder.getTotalAmount cart = CreateOrder.getTotalAmount cart'.
Proof.
  intros cart cart'. split; [vm_compute; reflexivity|].
  destruct (getTotalAmount_sums_in_cart_order
              cart cart' [] (line pizza 2) (line soda 1)) as (_ & H & _).
  apply H.
  - apply perm_swap.
  - simpl. lia.
Defined.

(** C4, as stated, fails on doubles: the total of pizza 12.99, fries 4.50
    and soda 2.99 comes out as 20.480000000000004, which is not a
    two-decimal amount, and differs from the total of the same lines
    entered as pizza, soda, fries. *)
Lemma getTotalAmount_not_rounded_order_dependent :
  let cart := [line pizza 1; line fries 1; line soda 1] in
  let cart' := [line pizza 1; line soda 1; line fries 1] in
  Permutation cart cart'
  /\ CreateOrder.getTotalAmount cart' = of_cents 2048
  /\ CreateOrder.getTotalAmount cart <> CreateOrder.getTotalAmount cart'
  /\ spec_round2 (CreateOrder.getTotalAmount cart) = of_cents 2048
  /\ CreateOrder.getTotalAmount cart <> spec_round2 (CreateOrder.getTotalAmount cart).
Proof.
  intros cart cart'.
  assert (Hne : CreateOrder.getTotalAmount cart <> of_cents 2048).
  { intros H.
    apply (f_equal (fun x => PrimFloat.ltb (of_cents 2048) x)) in H.
    vm_compute in H. discriminate. }
  assert (H1 : CreateOrder.getTotalAmount cart' = of_cents 2048)
    by (vm_compute; reflexivity).
  assert (H2 : spec_round2 (CreateOrder.getTotalAmount cart) = of_cents 2048)
    by (vm_compute; reflexivity).
  split; [|split; [|split; [|split]]].
  - apply perm_skip, perm_swap.
  - exact H1.
  - now rewrite H1.
  - exact H2.
  - now rewrite H2.
Qed.

(** C8, as stated, fails: a negative quantity is stored. *)
Lemma updateQuantity_stores_negative :
  let cart := [line pizza 2] in
  let cart' := CreateOrder.updateQuantity cart "margherita" (-3) in
  cart' <> cart
  /\ map CreateOrder.quantity cart' = [(-3)%Z]
  /\ Exists (fun item => (CreateOrder.quantity item < 0)%Z) cart'.
Proof.
  intros cart cart'. split; [|split].
  - intros H. apply (f_equal (map CreateOrder.quantity)) in H. discriminate.
  - reflexivity.
  - constructor. simpl. lia.
Qed.

(** C8 applied: setting a quantity of 3, and of 0. *)
Lemma updateQuantity_removes_or_stores_witness :
  map CreateOrder.quantity
      (CreateOrder.updateQuantity [line pizza 2; line soda 1]
                                  "margherita" 3) = [3%Z; 1%Z]
  /\ Forall (fun item => (1 <= CreateOrder.quantity item)%Z)
            (fold_left CreateOrder.on_event
               [CreateOrder.ClickProduct pizza; CreateOrder.ClickMinus "margherita"] []).
Proof.
  split.
  - reflexivity.
  - apply (updateQuantity_removes_or_stores
             [line pizza 2] "margherita" 3
             [CreateOrder.ClickProduct pizza; CreateOrder.ClickMinus "margherita"]).
Defined.

(** ** Submission *)

Section SubmissionFacts.
Context {N : Number}.
Import CreateOrder.

Lemma is_empty_spec (s : string) : reflect (s = ""%string) (is_empty s).
Proof. unfold is_empty. apply String.eqb_spec. Qed.

Lemma make_orderItemsData_total (oid : string) (cart : list OrderItem) :
  getTotalAmount cart = sum_of (map subtotal (make_orderItemsData oid cart)).
Proof.
  unfold getTotalAmount, sum_of, make_orderItemsData.
  rewrite getTotalAmount_fold, map_map. reflexivity.
Qed.

Lemma make_orderItemsData_rows (oid : string) (cart : list OrderItem) :
  Forall (fun r => order_id r = oid
                   /\ subtotal r = mul (unit_price r) (of_int (item_quantity r)))
         (make_orderItemsData oid cart)
  /\ Forall2 (fun item r => product_id r = id (product item)
                            /\ item_quantity r = quantity item
                            /\ unit_price r = price (product item))
             cart (make_orderItemsData oid cart).
Proof.
  induction cart as [|item cart [IH1 IH2]]; simpl; split; constructor; auto.
Qed.

(** C2. When a submission succeeds, it has added one order and one item
    row per cart line; the order's [total_amount] is the sum of the rows'
    [subtotal], each [subtotal] is its row's [unit_price] times its
    quantity, and the unit price and quantity are those of the cart line
    at submission. *)
Theorem handleSubmitOrder_total_is_sum_of_subtotals
  (store : Store) (f : Form) (db db' : Db) (oid : string) :
  handleSubmitOrder store f db = (db', Created oid) ->
  exists (orderData : OrderData) (rows : list OrderItemData),
    orders db' = orders db ++ [(oid, orderData)]
    /\ order_items db' = order_items db ++ rows
    /\ status orderData = "pending"%string
    /\ total_amount orderData = sum_of (map subtotal rows)
    /\ Forall (fun r => order_id r = oid
                        /\ subtotal r = mul (unit_price r) (of_int (item_quantity r)))
              rows
    /\ Forall2 (fun item r => product_id r = id (product item)
                              /\ item_quantity r = quantity item
                              /\ unit_price r = price (product item))
               (orderItems f) rows.
Proof.
  unfold handleSubmitOrder. intros H.
  destruct (List.length (orderItems f) =? 0)%nat; [discriminate|].
  destruct (is_dine_in (orderType f) && is_empty (tableNumber f));
    [discriminate|].
  destruct (is_delivery (orderType f)
            && (is_empty (customerName f) || is_empty (customerAddress f)
                || is_empty (customerLocation f))); [discriminate|].
  destruct (insert_order store (make_orderData f)) as [oid'|]; [|discriminate].
  destruct (insert_items store (make_orderItemsData oid' (orderItems f)));
    [|discriminate].
  injection H as <- <-. simpl.
  exists (make_orderData f), (make_orderItemsData oid' (orderItems f)).
  repeat split; try reflexivity.
  - apply make_orderItemsData_total.
  - apply make_orderItemsData_rows.
  - apply make_orderItemsData_rows.
Qed.

(** C3, as the code has it.  A submission is turned down by validation
    in exactly three cases, tried in this order: an empty cart
    ([EmptyOrder]); a dine-in order whose table number is the empty
    string ([MissingTableNumber]); a delivery order with an empty
    customer name, address or location ([MissingDeliveryInfo]).  Nothing
    is written when validation turns the submission down.  A table number
    that is not empty is never turned down, whether or not it parses. *)
Theorem handleSubmitOrder_validation (store : Store) (f : Form) (db : Db) :
  let result := handleSubmitOrder store f db in
  (forall e,
     snd result = Invalid e <->
     (e = EmptyOrder /\ orderItems f = [])
     \/ (e = MissingTableNumber /\ orderItems f <> []
         /\ orderType f = dine_in /\ tableNumber f = ""%string)
     \/ (e = MissingDeliveryInfo /\ orderItems f <> []
         /\ orderType f = delivery
         /\ (customerName f = ""%string \/ customerAddress f = ""%string
             \/ customerLocation f = ""%string)))
  /\ (forall e, snd result = Invalid e -> fst result = db).
Proof.
  unfold handleSubmitOrder.
  destruct (orderItems f) as [|item items] eqn:Hitems; simpl.
  - split; [|reflexivity]. intros e. split.
    + intros [= <-]. left. now split.
    + intros [[-> _]|[(_ & H & _)|(_ & H & _)]]; [reflexivity| |]; now destruct H.
  - destruct (orderType f) eqn:Htype; simpl.
    + destruct (is_empty_spec (tableNumber f)) as [Htable|Htable]; simpl.
      * split; [|reflexivity]. intros e. split.
        -- intros [= <-]. right. left. repeat split; [discriminate|exact Htable].
        -- intros [[_ H]|[(-> & _)|(_ & _ & H & _)]]; [discriminate|reflexivity|discriminate].
      * destruct (insert_order store _) as [oid|]; simpl;
          [destruct (insert_items store _); simpl|];
          (split; [|discriminate]); intros e; (split; [discriminate|]);
          intros [[_ H]|[(_ & _ & _ & H)|(_ & _ & H & _)]];
          try discriminate; contradiction.
    + destruct (is_empty_spec (customerName f)) as [Hn|Hn];
        destruct (is_empty_spec (customerAddress f)) as [Ha|Ha];
        destruct (is_empty_spec (customerLocation f)) as [Hl|Hl]; simpl;
        try (split; [|reflexivity]; intros e; split;
             [ intros [= <-]; right; right; repeat split;
               [discriminate|tauto]
             | intros [[_ H]|[(_ & _ & H & _)|(-> & _)]];
               [discriminate|discriminate|reflexivity] ]).
      destruct (insert_order store _) as [oid|]; simpl;
        [destruct (insert_items store _); simpl|];
        (split; [|discriminate]); intros e; (split; [discriminate|]);
        intros [[_ H]|[(_ & _ & H & _)|(_ & _ & _ & H)]];
        try discriminate; tauto.
Qed.

End SubmissionFacts.

(** C2 on the specification's scenario: two Margherita at 12.99 and one
    soda at 2.99, table 5; the order totals 28.97 with subtotals 25.98
    and 2.99. *)
Lemma handleSubmitOrder_total_is_sum_of_subtotals_witness :
  let f := dine_in_form [line pizza 2; line soda 1] "5" in
  let db' := fst (CreateOrder.handleSubmitOrder accepting_store f empty_db) in
  map (fun r => CreateOrder.total_amount (snd r)) (CreateOrder.orders db')
  = [of_cents 2897]
  /\ map CreateOrder.subtotal (CreateOrder.order_items db')
     = [of_cents 2598; of_cents 299]
  /\ exists orderData rows,
       CreateOrder.orders db' = [("order-1"%string, orderData)]
       /\ CreateOrder.order_items db' = rows
       /\ CreateOrder.total_amount orderData
          = sum_of (map CreateOrder.subtotal rows).
Proof.
  intros f db'.
  split; [vm_compute; reflexivity|]. split; [vm_compute; reflexivity|].
  destruct (@handleSubmitOrder_total_is_sum_of_subtotals js_number
              accepting_store f empty_db db' "order-1"%string)
    as (orderData & rows & H1 & H2 & _ & H4 & _).
  - reflexivity.
  - exists orderData, rows. repeat split; assumption.
Defined.

(** C3, as stated, fails: a dine-in order whose table number does not
    parse as an integer ([.5], which a numeric input field lets through)
    passes validation and is written, with [NaN] as its table number. *)
Lemma handleSubmitOrder_accepts_unparsable_table_number :
  let f := dine_in_form [line pizza 1] ".5" in
  let result := CreateOrder.handleSubmitOrder accepting_store f empty_db in
  parseInt ".5" = NaN
  /\ snd result = CreateOrder.Created "order-1"
  /\ snd result <> CreateOrder.Invalid CreateOrder.MissingTableNumber
  /\ map (fun r => CreateOrder.table_number (snd r)) (CreateOrder.orders (fst result))
     = [Some NaN]
  /\ List.length (CreateOrder.order_items (fst result)) = 1%nat.
Proof.
  intros f result.
  assert (H : snd result = CreateOrder.Created "order-1") by reflexivity.
  split; [reflexivity|]. split; [exact H|]. split; [rewrite H; discriminate|].
  split; reflexivity.
Qed.

(** The same with a table number that holds no digit at all. *)
Example handleSubmitOrder_accepts_letters :
  parseInt "abc" = NaN
  /\ snd (CreateOrder.handleSubmitOrder accepting_store
            (dine_in_form [line pizza 1] "abc") empty_db)
     = CreateOrder.Created "order-1".
Proof. split; reflexivity. Qed.

(** ** Status *)

Section StatusFacts.
Context {N : Number}.

Lemma reached_spec (me orderId : string) (r : Schema.OrderRow) :
  reflect (own_row_of me orderId r) (Schema.reached me orderId r).
Proof.
  unfold own_row_of, Schema.reached, Schema.own_order.
  destruct (String.eqb_spec (Schema.id r) orderId);
    destruct (String.eqb_spec (Schema.employee_id r) me);
    constructor; tauto.
Qed.

Lemma existsb_reached (me orderId : string) (table : list Schema.OrderRow) :
  existsb (Schema.reached me orderId) table = true
  <-> Exists (own_row_of me orderId) table.
Proof.
  rewrite existsb_exists, Exists_exists.
  split; intros (r & Hin & H); exists r; (split; [exact Hin|]);
    destruct (reached_spec me orderId r); auto; discriminate.
Qed.

(** The two answers of the store to a status write. *)
Lemma update_status_answer (failure : bool) (me : string)
  (table : list Schema.OrderRow) (orderId newStatus : string) :
  (refused failure me table orderId newStatus
   /\ Schema.update_status failure me table orderId newStatus = None)
  \/ (~ refused failure me table orderId newStatus
      /\ Schema.update_status failure me table orderId newStatus
         = Some (map (fun r => if Schema.reached me orderId r
                               then Schema.with_status r newStatus else r)
                     table)).
Proof.
  unfold Schema.update_status, refused.
  destruct failure; [left; split; [now left|reflexivity]|].
  destruct (existsb (Schema.reached me orderId) table) eqn:E;
    destruct (Schema.status_check newStatus) eqn:C; simpl.
  - right. split; [|reflexivity]. intros [H|[H _]]; discriminate.
  - left. split; [|reflexivity]. right. split; [reflexivity|].
    now apply existsb_reached.
  - right. split; [|reflexivity]. intros [H|[H _]]; discriminate.
  - right. split; [|reflexivity]. intros [H|[_ H]]; [discriminate|].
    apply existsb_reached in H. congruence.
Qed.

Lemma Forall2_map_self (A : Type) (P : A -> A -> Prop) (f : A -> A) (l : list A) :
  (forall x, In x l -> P x (f x)) -> Forall2 P l (map f l).
Proof.
  induction l as [|x l IH]; intros H; simpl; constructor.
  - apply H. now left.
  - apply IH. intros y Hy. apply H. now right.
Qed.

Lemma Forall2_same (A : Type) (P : A -> A -> Prop) (l : list A) :
  (forall x, P x x) -> Forall2 P l l.
Proof. intros H. induction l; constructor; auto. Qed.

Lemma with_status_same (r : Schema.OrderRow) (newStatus : string) :
  same_but_status r (Schema.with_status r newStatus).
Proof. unfold same_but_status. simpl. now repeat split. Qed.

Lemma reached_written (me orderId newStatus : string) (table : list Schema.OrderRow) :
  Forall2 (status_written_by me orderId newStatus) table
          (map (fun r => if Schema.reached me orderId r
                         then Schema.with_status r newStatus else r) table).
Proof.
  apply Forall2_map_self. intros r _. unfold status_written_by.
  destruct (reached_spec me orderId r) as [Hown|Hother].
  - split; [|contradiction]. intros _. split; [reflexivity|].
    apply with_status_same.
  - split; [contradiction|reflexivity].
Qed.

Lemma page_copies_written (orderId newStatus : string) (orders : list Orders.Order) :
  Forall2 (fun order order' =>
             status_written orderId newStatus (Orders.row order) (Orders.row order')
             /\ Orders.profiles order' = Orders.profiles order
             /\ Orders.order_items order' = Orders.order_items order)
          orders
          (map (fun order => if String.eqb (Orders.id order) orderId
                             then Orders.with_status order newStatus else order)
               orders).
Proof.
  apply Forall2_map_self. intros order _. unfold status_written, Orders.id.
  destruct (String.eqb_spec (Schema.id (Orders.row order)) orderId) as [Heq|Hne];
    simpl.
  - split; [|now split]. split; [|contradiction]. intros _.
    split; [reflexivity|apply with_status_same].
  - split; [|now split]. split; [contradiction|reflexivity].
Qed.

Lemma same_but_status_own (me orderId : string) (t t2 : list Schema.OrderRow) :
  Forall2 same_but_status t t2 ->
  (Exists (own_row_of me orderId) t <-> Exists (own_row_of me orderId) t2).
Proof.
  induction 1 as [|r r2 t t2 Hr _ IH]; [split; intros H; inversion H|].
  destruct Hr as (Hid & _ & _ & _ & _ & _ & _ & _ & Hemp).
  rewrite !Exists_cons, IH. unfold own_row_of. rewrite Hid, Hemp. tauto.
Qed.

Lemma completed_passes_check : Schema.status_check "completed" = true.
Proof. reflexivity. Qed.

(** C10, as the code has it.  The status update reads no order's current
    status.  The store answers it with an error during a failure, and
    when the requested value is outside the check of the column
    ([pending], [completed], [cancelled]) and the order is the
    employee's own; then nothing changes.  Otherwise the rows of that
    identifier that belong to the employee take the requested status,
    whatever status they had, and keep their other fields, every other
    row is untouched, and the page sets the status on its copies of the
    order and reports success.  Whether the answer is an error does not
    depend on any stored status.  [handleCompleteOrder] likewise writes
    [completed] on the employee's own order whatever its status. *)
Theorem updateOrderStatus_no_guard_on_current_status
  (failure : bool) (me : string) (rendered : list Orders.Order)
  (p p2 : Orders.Page) (orderId newStatus : string)
  (s : OrderSummary.Page) (o : OrderSummary.OrderDetails) :
  let result := Orders.updateOrderStatus failure me rendered p orderId newStatus in
  let s0 := {| OrderSummary.table := OrderSummary.table s;
               OrderSummary.order := Some o |} in
  let summary := OrderSummary.handleCompleteOrder failure me s0 in
  (refused failure me (Orders.table p) orderId newStatus ->
     result = (p, ToastError "Failed to update order status"))
  /\ (~ refused failure me (Orders.table p) orderId newStatus ->
      Forall2 (status_written_by me orderId newStatus)
              (Orders.table p) (Orders.table (fst result))
      /\ Forall2 (fun order order' =>
                    status_written orderId newStatus
                                   (Orders.row order) (Orders.row order')
                    /\ Orders.profiles order' = Orders.profiles order
                    /\ Orders.order_items order' = Orders.order_items order)
                 rendered (Orders.orders (fst result))
      /\ snd result = ToastSuccess ("Order status updated to " ++ newStatus))
  /\ (Forall2 same_but_status (Orders.table p) (Orders.table p2) ->
      snd (Orders.updateOrderStatus failure me rendered p2 orderId newStatus)
      = snd result)
  /\ (failure = true ->
      summary = (s0, Some (ToastError "Failed to complete order")))
  /\ (failure = false ->
      Forall2 (status_written_by me (Schema.id (OrderSummary.row o)) "completed")
              (OrderSummary.table s) (OrderSummary.table (fst summary))
      /\ option_map OrderSummary.status (OrderSummary.order (fst summary))
         = Some "completed"%string
      /\ snd summary = Some (ToastSuccess "Order marked as completed!")).
Proof.
  cbv zeta. unfold Orders.updateOrderStatus, OrderSummary.handleCompleteOrder.
  cbn [OrderSummary.order OrderSummary.table].
  split; [|split; [|split; [|split]]].
  - intros Href.
    destruct (update_status_answer failure me (Orders.table p) orderId newStatus)
      as [[_ ->]|[Hnot _]]; [reflexivity|contradiction].
  - intros Hnot.
    destruct (update_status_answer failure me (Orders.table p) orderId newStatus)
      as [[Href _]|[_ ->]]; [contradiction|]. simpl.
    split; [apply reached_written|]. split; [apply page_copies_written|reflexivity].
  - intros Hsame.
    destruct (update_status_answer failure me (Orders.table p) orderId newStatus)
      as [[Href ->]|[Hnot ->]];
      destruct (update_status_answer failure me (Orders.table p2) orderId newStatus)
        as [[Href2 ->]|[Hnot2 ->]]; try reflexivity; exfalso.
    + apply Hnot2. destruct Href as [Hf|[Hc Hex]]; [now left|right].
      split; [exact Hc|]. now apply (same_but_status_own me orderId Hsame).
    + apply Hnot. destruct Href2 as [Hf|[Hc Hex]]; [now left|right].
      split; [exact Hc|]. now apply (same_but_status_own me orderId Hsame).
  - intros ->. reflexivity.
  - intros ->.
    destruct (update_status_answer false me (OrderSummary.table s)
                (Schema.id (OrderSummary.row o)) "completed")
      as [[[Hf|[Hc _]] _]|[_ ->]]; [discriminate|discriminate|]. simpl.
    split; [apply reached_written|]. split; reflexivity.
Qed.

Lemma orders_buttons_cases (o : Orders.Order) :
  (Orders.status o = "pending"%string
   /\ Orders.status_buttons o = ["in_progress"%string])
  \/ (Orders.status o = "in_progress"%string
      /\ Orders.status_buttons o = ["completed"%string])
  \/ (Orders.status o <> "pending"%string
      /\ Orders.status o <> "in_progress"%string
      /\ Orders.status_buttons o = []).
Proof.
  unfold Orders.status_buttons.
  destruct (String.eqb_spec (Orders.status o) "pending") as [Ho|Ho].
  - left. rewrite Ho. now split.
  - destruct (String.eqb_spec (Orders.status o) "in_progress") as [Ho'|Ho'].
    + right. left. now split.
    + right. right. now repeat split.
Qed.

Lemma summary_buttons_cases (d : OrderSummary.OrderDetails) :
  (OrderSummary.status d = "pending"%string
   /\ OrderSummary.status_buttons d = ["completed"%string])
  \/ (OrderSummary.status d <> "pending"%string
      /\ OrderSummary.status_buttons d = []).
Proof.
  unfold OrderSummary.status_buttons.
  destruct (String.eqb_spec (OrderSummary.status d) "pending") as [Hd|Hd].
  - left. now split.
  - right. now split.
Qed.

(** The buttons that the two pages render. *)
Lemma status_buttons_offered (o : Orders.Order)
  (d : OrderSummary.OrderDetails) (t : string) :
  (In t (Orders.status_buttons o) <-> single_step (Orders.status o) t)
  /\ (In t (OrderSummary.status_buttons d) <->
      OrderSummary.status d = "pending"%string /\ t = "completed"%string)
  /\ (In t (Orders.status_buttons o) -> (rank (Orders.status o) < rank t)%Z)
  /\ (In t (OrderSummary.status_buttons d) ->
      (rank (OrderSummary.status d) < rank t)%Z)
  /\ (Orders.status o = "completed"%string -> Orders.status_buttons o = [])
  /\ (OrderSummary.status d = "completed"%string ->
      OrderSummary.status_buttons d = []).
Proof.
  destruct (orders_buttons_cases o) as [(Ho & Hb)|[(Ho & Hb)|(Ho & Ho' & Hb)]];
    destruct (summary_buttons_cases d) as [(Hd & Hc)|(Hd & Hc)];
    rewrite Hb, Hc; unfold single_step; simpl;
    (split; [|split; [|split; [|split; [|split]]]]);
    try rewrite Ho; try rewrite Hd;
    try (intros H; congruence);
    try (intros [<-|[]]; reflexivity);
    try (intros []);
    try (split; [intros [<-|[]]; tauto | intros [[_ ->]|[H _]]; [now left|discriminate]]);
    try (split; [intros [<-|[]]; tauto | intros [[H _]|[_ ->]]; [discriminate|now left]]);
    try (split; [intros [<-|[]]; tauto | intros [_ ->]; now left]);
    try (split; [intros [] | intros [[H _]|[H _]]; contradiction]);
    try (split; [intros [] | intros [H _]; contradiction]).
Qed.

(** What the store holds after a button rendered for [shown] was pressed. *)
Lemma press_stored (shown : Schema.OrderRow) (t : string) (failure : bool)
  (me : string) (table : list Schema.OrderRow) :
  (rank (Schema.status shown) < rank t)%Z ->
  Forall2 (pressed shown t) table
          (match Schema.update_status failure me table (Schema.id shown) t with
           | Some table' => table'
           | None => table
           end).
Proof.
  intros Hrank.
  destruct (update_status_answer failure me table (Schema.id shown) t)
    as [[_ ->]|[_ ->]].
  - apply Forall2_same. intros r. now left.
  - apply Forall2_map_self. intros r _.
    destruct (reached_spec me (Schema.id shown) r) as [[Hid _]|_]; [|now left].
    right. split; [exact Hid|]. split; [reflexivity|].
    split; [apply with_status_same|]. simpl. intros ->. exact Hrank.
Qed.

(** C1, as the code has it.  The orders page renders, on a pending
    order, the request to move it to [in_progress] and, on an order in
    progress, the request to move it to [completed], and nothing else;
    the order summary page renders, on a pending order, the move straight
    to [completed], and nothing else.  Every request rendered is for a
    later status, and none is rendered on a completed order.  Pressing a
    rendered button leaves each stored row as it was or writes the
    requested status on a row of that order, keeping its other fields,
    and this raises the row's status whenever the page showed the stored
    one.  The press on the summary page, on a pending order of the
    employee's own and with no failure, stores [completed]. *)
Theorem status_buttons_transitions (o : Orders.Order)
  (d : OrderSummary.OrderDetails) (t : string)
  (failure : bool) (me : string) (rendered : list Orders.Order)
  (p : Orders.Page) (table : list Schema.OrderRow) :
  let s := {| OrderSummary.table := table; OrderSummary.order := Some d |} in
  (In t (Orders.status_buttons o) <-> single_step (Orders.status o) t)
  /\ (In t (OrderSummary.status_buttons d) <->
      OrderSummary.status d = "pending"%string /\ t = "completed"%string)
  /\ (In t (Orders.status_buttons o) -> (rank (Orders.status o) < rank t)%Z)
  /\ (In t (OrderSummary.status_buttons d) ->
      (rank (OrderSummary.status d) < rank t)%Z)
  /\ (Orders.status o = "completed"%string -> Orders.status_buttons o = [])
  /\ (OrderSummary.status d = "completed"%string ->
      OrderSummary.status_buttons d = [])
  /\ (In t (Orders.status_buttons o) ->
      Forall2 (pressed (Orders.row o) t) (Orders.table p)
              (Orders.table
                 (fst (Orders.updateOrderStatus failure me rendered p
                                                (Orders.id o) t))))
  /\ (In t (OrderSummary.status_buttons d) ->
      Forall2 (pressed (OrderSummary.row d) t) table
              (OrderSummary.table (fst (OrderSummary.handleCompleteOrder failure me s))))
  /\ (In t (OrderSummary.status_buttons d) -> failure = false ->
      Forall2 (status_written_by me (Schema.id (OrderSummary.row d)) "completed")
              table
              (OrderSummary.table (fst (OrderSummary.handleCompleteOrder failure me s)))).
Proof.
  cbv zeta.
  destruct (status_buttons_offered o d t) as (H1 & H2 & H3 & H4 & H5 & H6).
  repeat (split; [assumption|]). split; [|split].
  - intros Ht. pose proof (press_stored (Orders.row o) t failure me (Orders.table p) (H3 Ht)) as H.
    unfold Orders.updateOrderStatus, Orders.id.
    now destruct (Schema.update_status failure me (Orders.table p)
                    (Schema.id (Orders.row o)) t).
  - intros Ht. pose proof (H4 Ht) as Hrank. apply H2 in Ht as [_ ->].
    pose proof (press_stored (OrderSummary.row d) "completed" failure me table Hrank) as H.
    unfold OrderSummary.handleCompleteOrder. cbn [OrderSummary.order OrderSummary.table].
    now destruct (Schema.update_status failure me table
                    (Schema.id (OrderSummary.row d)) "completed").
  - intros _ ->.
    unfold OrderSummary.handleCompleteOrder. cbn [OrderSummary.order OrderSummary.table].
    destruct (update_status_answer false me table
                (Schema.id (OrderSummary.row d)) "completed")
      as [[[Hf|[Hc _]] _]|[_ ->]]; [discriminate|discriminate|]. simpl.
    apply reached_written.
Qed.

End StatusFacts.

(** C1, as stated, fails: the order summary page offers "Mark Complete"
    on a pending order, and pressing it takes the stored order from
    [pending] straight to [completed]. *)
Lemma order_summary_completes_pending_order :
  let r := sample_row "order-1" "pending" 0 in
  let o := @OrderSummary.Build_OrderDetails js_number r [] in
  let p := @OrderSummary.Build_Page js_number [r] (Some o) in
  OrderSummary.status o = "pending"%string
  /\ In "completed"%string (OrderSummary.status_buttons o)
  /\ map Schema.status
         (OrderSummary.table
            (fst (OrderSummary.handleCompleteOrder false "employee-1" p)))
     = ["completed"%string]
  /\ ~ single_step (OrderSummary.status o) "completed".
Proof.
  intros r o p. split; [reflexivity|]. split; [now left|].
  split; [reflexivity|].
  intros [[_ H]|[H _]]; discriminate.
Qed.

(** C10, as stated, fails: not every requested value is written, and not
    on every order.  The employee's own pending order is asked to start
    preparation: the store refuses [in_progress] and nothing changes.  A
    colleague's order is asked to complete: the store answers with no
    error and no row written, while the page shows the order completed
    and reports success. *)
Lemma updateOrderStatus_not_every_request_written :
  let mine := sample_row "order-1" "pending" 0 in
  let theirs := colleague_row "order-2" "pending" 0 in
  let p := @Orders.Build_Page js_number [mine; theirs]
                              [order_of_row mine; order_of_row theirs] in
  let start := Orders.updateOrderStatus false "employee-1" (Orders.orders p) p
                                        "order-1" "in_progress" in
  let complete := Orders.updateOrderStatus false "employee-1" (Orders.orders p) p
                                           "order-2" "completed" in
  start = (p, ToastError "Failed to update order status")
  /\ Orders.table (fst complete) = Orders.table p
  /\ map Orders.status (Orders.orders (fst complete))
     = ["pending"; "completed"]%string
  /\ snd complete = ToastSuccess "Order status updated to completed".
Proof.
  intros mine theirs p start complete.
  split; [reflexivity|]. split; [reflexivity|]. split; reflexivity.
Qed.

(** C10 applied: a completed order of the employee's own is taken back to
    [pending] when asked. *)
Lemma updateOrderStatus_no_guard_on_current_status_witness :
  let r := sample_row "order-1" "completed" 0 in
  let p := @Orders.Build_Page js_number [r] [order_of_row r] in
  let result := Orders.updateOrderStatus false "employee-1" (Orders.orders p) p
                                         "order-1" "pending" in
  ~ refused false "employee-1" (Orders.table p) "order-1" "pending"
  /\ Forall2 (status_written_by "employee-1" "order-1" "pending")
             (Orders.table p) (Orders.table (fst result))
  /\ map Schema.status (Orders.table (fst result)) = ["pending"%string]
  /\ snd result = ToastSuccess "Order status updated to pending".
Proof.
  intros r p result.
  assert (Hnot : ~ refused false "employee-1" (Orders.table p) "order-1" "pending").
  { intros [H|[H _]]; discriminate. }
  destruct (@updateOrderStatus_no_guard_on_current_status js_number
              false "employee-1" (Orders.orders p) p p "order-1" "pending"
              (@OrderSummary.Build_Page js_number [] None)
              (@OrderSummary.Build_OrderDetails js_number r []))
    as (_ & H & _).
  destruct (H Hnot) as (Htable & _ & Htoast).
  split; [exact Hnot|]. split; [exact Htable|]. split; [reflexivity|exact Htoast].
Defined.

(** ** Grouping by date *)

Section GroupingFacts.
Context {N : Number}.
Variable local_offset : Z -> Z.
Import Orders.

Local Abbreviation key_of := (dateKey local_offset).
Local Abbreviation collect := (groups_of local_offset).
Local Abbreviation bucket_of := (bucket_of_date local_offset).

Lemma push_keys (groups : list (Z * list Order)) (k : Z) (o : Order) :
  (In k (map fst groups) /\ map fst (push groups k o) = map fst groups)
  \/ (~ In k (map fst groups) /\ map fst (push groups k o) = map fst groups ++ [k]).
Proof.
  induction groups as [|[k' b] groups IH]; simpl.
  - right. split; [tauto|reflexivity].
  - destruct (Z.eqb_spec k' k) as [->|Hne]; simpl.
    + left. split; [now left|reflexivity].
    + destruct IH as [[Hin Heq]|[Hnin Heq]]; rewrite Heq.
      * left. split; [now right|reflexivity].
      * right. split; [|reflexivity]. intros [H|H]; contradiction.
Qed.

Lemma push_NoDup (groups : list (Z * list Order)) (k : Z) (o : Order) :
  NoDup (map fst groups) -> NoDup (map fst (push groups k o)).
Proof.
  intros Hnd. destruct (push_keys groups k o) as [[_ ->]|[Hnin ->]].
  - exact Hnd.
  - apply NoDup_app_remove_l with (l := []). simpl.
    apply Permutation_NoDup with (l := k :: map fst groups).
    + apply Permutation_cons_append.
    + now constructor.
Qed.

Lemma push_concat (groups : list (Z * list Order)) (k : Z) (o : Order) :
  Permutation (List.concat (map snd (push groups k o)))
              (List.concat (map snd groups) ++ [o]).
Proof.
  induction groups as [|[k' b] groups IH]; simpl.
  - reflexivity.
  - destruct (Z.eqb_spec k' k) as [->|Hne]; simpl.
    + rewrite <- !app_assoc. apply Permutation_app_head, Permutation_app_comm.
    + rewrite <- app_assoc. now apply Permutation_app_head.
Qed.

Lemma filter_snoc (A : Type) (f : A -> bool) (l : list A) (x : A) :
  filter f (l ++ [x]) = filter f l ++ (if f x then [x] else []).
Proof. rewrite filter_app. reflexivity. Qed.

Lemma push_buckets (groups : list (Z * list Order)) (orders : list Order)
  (o : Order) :
  NoDup (map fst groups) ->
  Forall (bucket_of orders) groups ->
  (~ In (key_of o) (map fst groups) ->
   filter (fun o' => (key_of o' =? key_of o)%Z) orders = []) ->
  Forall (bucket_of (orders ++ [o])) (push groups (key_of o) o).
Proof.
  induction groups as [|[k b] groups IH]; intros Hnd Hall Hnew; simpl.
  - constructor; [|constructor]. unfold bucket_of. simpl.
    rewrite filter_snoc, Hnew, Z.eqb_refl by tauto.
    split; [reflexivity|discriminate].
  - inversion Hall as [|g gs [Hb Hne] Hrest]; subst.
    inversion Hnd as [|k0 ks Hk0 Hnd']; subst. simpl in *.
    destruct (Z.eqb_spec k (key_of o)) as [Hk|Hk].
    + constructor.
      * unfold bucket_of. simpl. rewrite filter_snoc, <- Hb, Hk, Z.eqb_refl.
        split; [reflexivity|]. now destruct b.
      * rewrite Forall_forall in *. intros [k' b'] Hin.
        destruct (Hrest _ Hin) as [Hb' Hne']. unfold bucket_of. simpl in *.
        rewrite filter_snoc, <- Hb'.
        destruct (Z.eqb_spec (key_of o) k') as [Heq|_].
        -- exfalso. apply Hk0. rewrite Hk, Heq.
           change k' with (fst (k', b')). now apply in_map.
        -- rewrite app_nil_r. now split.
    + constructor.
      * unfold bucket_of. simpl. rewrite filter_snoc, <- Hb.
        destruct (Z.eqb_spec (key_of o) k) as [Heq|_]; [now symmetry in Heq|].
        rewrite app_nil_r. now split.
      * apply IH; [exact Hnd'|exact Hrest|]. intros Hnin. apply Hnew.
        intros [H|H]; contradiction.
Qed.

(** What the loop maintains. *)
Lemma collect_invariant (orders : list Order) :
  let groups := collect orders in
  NoDup (map fst groups)
  /\ Forall (bucket_of orders) groups
  /\ Permutation (List.concat (map snd groups)) orders.
Proof.
  unfold collect.
  induction orders as [|o orders (Hnd & Hall & Hperm)] using rev_ind; simpl.
  - repeat split; constructor.
  - rewrite fold_left_snoc. split; [|split].
    + now apply push_NoDup.
    + apply push_buckets; [exact Hnd|exact Hall|]. intros Hnin.
      destruct (filter (fun o' => (key_of o' =? key_of o)%Z) orders)
        as [|o' rest] eqn:Hf; [reflexivity|]. exfalso.
      assert (Hin : In o' (filter (fun o' => (key_of o' =? key_of o)%Z) orders))
        by (rewrite Hf; now left).
      apply filter_In in Hin as [Hin Hkey]. apply Z.eqb_eq in Hkey.
      apply Hnin.
      apply (Permutation_in o' (Permutation_sym Hperm)) in Hin.
      apply in_concat in Hin as (b & Hb & Ho').
      apply in_map_iff in Hb as ([k b'] & <- & Hg).
      rewrite Forall_forall in Hall. destruct (Hall _ Hg) as [Hbk _].
      simpl in *. rewrite Hbk in Ho'.
      apply filter_In in Ho' as [_ Hk']. apply Z.eqb_eq in Hk'.
      rewrite <- Hkey, Hk'. change k with (fst (k, b')). now apply in_map.
    + rewrite push_concat. now apply Permutation_app_tail.
Qed.

Lemma insert_by_permutation (A : Type) (cmp : A -> A -> Z) (x : A) (l : list A) :
  Permutation (insert_by cmp x l) (x :: l).
Proof.
  induction l as [|y l IH]; simpl.
  - reflexivity.
  - destruct (cmp x y <=? 0)%Z; [reflexivity|].
    rewrite IH. apply perm_swap.
Qed.

Lemma sort_by_permutation (A : Type) (cmp : A -> A -> Z) (l : list A) :
  Permutation (sort_by cmp l) l.
Proof.
  induction l as [|x l IH]; simpl.
  - reflexivity.
  - rewrite insert_by_permutation. now constructor.
Qed.

Lemma insert_later (x : Z * list Order) (l : list (Z * list Order)) :
  ~ In (fst x) (map fst l) ->
  StronglySorted later l ->
  StronglySorted later (insert_by by_date_descending x l).
Proof.
  induction l as [|y l IH]; intros Hnew Hsorted; simpl.
  - constructor; constructor.
  - inversion Hsorted as [|y' l' Hl Hy]; subst.
    assert (Hxy : fst x <> fst y) by (intros H; apply Hnew; now left).
    unfold by_date_descending at 1, getTime, ms_per_day.
    destruct (Z.leb_spec (fst y * 86400000 - fst x * 86400000) 0) as [Hle|Hgt].
    + constructor; [exact Hsorted|].
      assert (Hlt : later x y) by (unfold later; lia).
      constructor; [exact Hlt|].
      eapply Forall_impl; [|exact Hy]. unfold later in *. intros z Hz. lia.
    + constructor.
      * apply IH; [|exact Hl]. intros H. apply Hnew. now right.
      * eapply Permutation_Forall.
        -- symmetry. apply insert_by_permutation.
        -- constructor; [unfold later; lia|exact Hy].
Qed.

Lemma sort_by_later (l : list (Z * list Order)) :
  NoDup (map fst l) ->
  StronglySorted later (sort_by by_date_descending l).
Proof.
  induction l as [|x l IH]; intros Hnd; simpl.
  - constructor.
  - inversion Hnd as [|k ks Hk Hnd']; subst.
    apply insert_later; [|now apply IH].
    intros Hin. apply Hk.
    eapply Permutation_in; [|exact Hin].
    apply Permutation_map, sort_by_permutation.
Qed.

(** The key of an order is the local calendar day of its creation. *)
Lemma dateKey_local_day (o : Order) (day : Z) :
  (dateKey local_offset o =? day)%Z = on_local_day local_offset day o.
Proof.
  unfold dateKey, on_local_day, local_time, ms_per_day. cbv zeta.
  set (t := (new_Date (Schema.created_at (row o))
             + local_offset (new_Date (Schema.created_at (row o))))%Z).
  pose proof (Z.div_mod t 86400000 ltac:(lia)) as Hdiv.
  pose proof (Z.mod_pos_bound t 86400000 ltac:(lia)) as Hmod.
  destruct (Z.eqb_spec (t / 86400000) day) as [Heq|Hne];
    destruct (Z.leb_spec (day * 86400000) t);
    destruct (Z.ltb_spec t ((day + 1) * 86400000)); simpl; try reflexivity; lia.
Qed.

(** C7. [groupOrdersByDate] splits the orders into buckets keyed by the
    local calendar day of creation: the buckets come by strictly
    descending day; the bucket of a day holds exactly the orders whose
    local time of creation lies in that day, from its midnight to the
    next, in the order they were given, and is not empty; the buckets
    laid end to end are a permutation of the orders. *)
Theorem groupOrdersByDate_partitions_by_date (orders : list Order) :
  let groups := groupOrdersByDate local_offset orders in
  StronglySorted (fun a b => (fst b < fst a)%Z) groups
  /\ Forall (fun g =>
               snd g = filter (on_local_day local_offset (fst g)) orders
               /\ snd g <> []) groups
  /\ Forall (fun g =>
               Forall (fun o =>
                         (fst g * ms_per_day <= local_time local_offset o
                          < (fst g + 1) * ms_per_day)%Z) (snd g)) groups
  /\ Permutation (List.concat (map snd groups)) orders.
Proof.
  destruct (collect_invariant orders) as (Hnd & Hall & Hperm).
  assert (Hdays : Forall (fun g =>
                            snd g = filter (on_local_day local_offset (fst g)) orders
                            /\ snd g <> []) (collect orders)).
  { eapply Forall_impl; [|exact Hall]. intros g [Hb Hne]. split; [|exact Hne].
    rewrite Hb. apply filter_ext. intros o. apply dateKey_local_day. }
  unfold groupOrdersByDate. fold (collect orders).
  change (fun a b : Z * list Order => (getTime (fst b) - getTime (fst a))%Z)
    with by_date_descending.
  simpl. split; [|split; [|split]].
  - now apply sort_by_later.
  - eapply Permutation_Forall; [|exact Hdays].
    symmetry. apply sort_by_permutation.
  - eapply Permutation_Forall; [symmetry; apply sort_by_permutation|].
    eapply Forall_impl; [|exact Hdays]. intros g [Hb _]. rewrite Hb.
    apply Forall_forall. intros o Ho. apply filter_In in Ho as [_ Ho].
    unfold on_local_day in Ho. apply andb_true_iff in Ho as [H1 H2].
    apply Z.leb_le in H1. apply Z.ltb_lt in H2. now split.
  - eapply Permutation_trans; [|exact Hperm].
    rewrite <- !flat_map_concat_map.
    apply Permutation_flat_map, sort_by_permutation.
Qed.

End GroupingFacts.

(** Five orders seen from a browser five hours behind UTC: the order
    created at 03:00 UTC of the next day belongs to the local date of the
    day before. *)
Example groupOrdersByDate_local_dates :
  map (fun g => (fst g, map Orders.id (snd g)))
      (Orders.groupOrdersByDate utc_minus_5
         [ sample_order "a" (at_time ref_day 12 0 0 0);
           sample_order "b" (at_time (ref_day + 1) 3 0 0 0);
           sample_order "c" (at_time (ref_day + 1) 13 0 0 0);
           sample_order "d" (at_time (ref_day - 1) 13 0 0 0);
           sample_order "e" (at_time ref_day 5 0 0 0) ])
  = [ (ref_day + 1, ["c"]); (ref_day, ["a"; "b"; "e"]); (ref_day - 1, ["d"]) ]%string%Z.
Proof. reflexivity. Qed.

(** ** Statistics *)

Section StatsFacts.
Context {N : Number}.

Lemma fold_total_amount (A : Type) (f : A -> num) (l : list A) (a : num) :
  fold_left (fun sum x => add sum (f x)) l a = fold_left add (map f l) a.
Proof.
  revert a. induction l as [|x l IH]; intros a; simpl; [reflexivity|apply IH].
Qed.

Lemma in_day_window_spec (d : Z) (r : Schema.OrderRow) :
  Schema.in_day_window d r = true <->
  (T00_00_00 d <= Schema.created_at r < T23_59_59 d)%Z.
Proof.
  unfold Schema.in_day_window. rewrite andb_true_iff, Z.leb_le, Z.ltb_lt.
  tauto.
Qed.

Lemma upsert_row (uuid : string) (table : list FileManager.SalesReport)
  (values : FileManager.Values) :
  FileManager.values_id values = None ->
  exists r, In r (FileManager.upsert uuid table values)
            /\ FileManager.id r = uuid
            /\ FileManager.report_date r = FileManager.values_report_date values
            /\ FileManager.total_orders r = FileManager.values_total_orders values
            /\ FileManager.total_revenue r = FileManager.values_total_revenue values.
Proof.
  intros Hid. unfold FileManager.upsert. rewrite Hid.
  destruct (existsb (fun r => String.eqb (FileManager.id r) uuid) table) eqn:Hex.
  - apply existsb_exists in Hex as (r & Hin & Heq).
    eexists. split.
    + apply in_map_iff. exists r. split; [|exact Hin]. rewrite Heq. reflexivity.
    + simpl. repeat split.
  - eexists. split.
    + apply in_or_app. right. left. reflexivity.
    + simpl. repeat split.
Qed.

(** C5, as the code has it.  [fetchStats] counts all the orders and all
    the pending orders, of any date; only the revenue is restricted to
    the orders created in the window of today's date, from 00:00:00
    included to 23:59:59 excluded, so that an order of 23:59:30 counts
    and one of 23:59:59 or later does not.  With no order in the window
    the revenue is 0, and with no order at all the counts are 0 too.
    [generateSalesReport], for the date it is given, records an order
    count and a revenue that are both restricted to that date's window. *)
Theorem fetchStats_counts_all_orders_revenue_of_window
  (now : Z) (db : Dashboard.Db)
  (answers : FileManager.Answers) (date : Z) (fdb : FileManager.Db) :
  let stats := Dashboard.fetchStats all_answered now db in
  let todayOrders :=
    filter (Schema.in_day_window (iso_date now)) (Dashboard.orders db) in
  let reported :=
    filter (fun o => Schema.in_day_window (iso_date date) (FileManager.row o))
           (FileManager.orders_table fdb) in
  Dashboard.totalOrders stats = Z.of_nat (List.length (Dashboard.orders db))
  /\ Dashboard.pendingOrders stats
     = Z.of_nat (List.length (filter is_pending (Dashboard.orders db)))
  /\ Dashboard.todayRevenue stats
     = sum_or_zero (map Schema.total_amount todayOrders)
  /\ (forall r, In r todayOrders <->
                In r (Dashboard.orders db)
                /\ (T00_00_00 (iso_date now) <= Schema.created_at r
                    < T23_59_59 (iso_date now))%Z)
  /\ (forall d r us, (0 <= us < us_per_second)%Z ->
        (Schema.created_at r = at_time d 23 59 30 us ->
         Schema.in_day_window d r = true)
        /\ (Schema.created_at r = at_time d 23 59 59 us ->
            Schema.in_day_window d r = false))
  /\ (todayOrders = [] -> Dashboard.todayRevenue stats = zero)
  /\ (Dashboard.orders db = [] ->
      Dashboard.totalOrders stats = 0%Z /\ Dashboard.pendingOrders stats = 0%Z
      /\ Dashboard.todayRevenue stats = zero)
  /\ (FileManager.query_error answers = false ->
      FileManager.save_error answers = false ->
      exists r,
        In r (FileManager.sales_reports
                (fst (FileManager.generateSalesReport answers date fdb)))
        /\ FileManager.report_date r = iso_date date
        /\ FileManager.total_orders r = Z.of_nat (List.length reported)
        /\ FileManager.total_revenue r
           = sum_or_zero (map (fun o => Schema.total_amount (FileManager.row o))
                              reported)).
Proof.
  simpl.
  assert (Hrev : forall rows,
             Dashboard.revenue (Some rows)
             = sum_or_zero (map Schema.total_amount rows)).
  { intros rows. unfold Dashboard.revenue, sum_or_zero, sum_of.
    now rewrite fold_total_amount. }
  split; [reflexivity|]. split; [reflexivity|]. split; [apply Hrev|].
  split; [|split; [|split; [|split]]].
  - intros r. rewrite filter_In, in_day_window_spec. tauto.
  - intros d r us Hus. unfold Schema.in_day_window, T00_00_00, T23_59_59, at_time,
      us_per_second in *.
    split; intros ->.
    + apply andb_true_iff. rewrite Z.leb_le, Z.ltb_lt. lia.
    + apply andb_false_iff. right. apply Z.ltb_ge. lia.
  - intros Hnone. unfold Dashboard.fetchStats. simpl. rewrite Hnone.
    unfold Dashboard.revenue. simpl. now destruct (truthy zero).
  - intros Hempty. unfold Dashboard.fetchStats. simpl. rewrite Hempty. simpl.
    repeat split. unfold Dashboard.revenue. simpl. now destruct (truthy zero).
  - intros Hq Hs. unfold FileManager.generateSalesReport. rewrite Hq, Hs. simpl.
    match goal with
    | |- context [FileManager.upsert ?u ?t ?v] =>
        destruct (upsert_row u t v eq_refl) as (r & Hin & _ & Hd & Ho & Hr)
    end.
    exists r. split; [exact Hin|]. simpl in *. rewrite Hd, Ho, Hr.
    repeat split. unfold FileManager.revenue, sum_or_zero, sum_of.
    now rewrite fold_total_amount.
Qed.

End StatsFacts.

(** C5 on the specification's scenario: orders of 28.97 created at 09:00,
    14:00 and 23:59:30 of the reference date, and a fourth at 23:59:59.
    All four are counted; the revenue is that of the first three. *)
Lemma fetchStats_counts_all_orders_revenue_of_window_witness :
  let rows := [ sample_row "order-1" "pending" (at_time ref_day 9 0 0 0);
                sample_row "order-2" "completed" (at_time ref_day 14 0 0 0);
                sample_row "order-3" "pending" (at_time ref_day 23 59 30 0);
                sample_row "order-4" "pending" (at_time ref_day 23 59 59 0) ] in
  let stats := Dashboard.fetchStats all_answered ref_noon_ms (dashboard_db rows) in
  Dashboard.totalOrders stats = 4%Z
  /\ Dashboard.pendingOrders stats = 3%Z
  /\ Dashboard.todayRevenue stats = of_cents 8691.
Proof.
  intros rows stats.
  destruct (@fetchStats_counts_all_orders_revenue_of_window js_number
              ref_noon_ms (dashboard_db rows)
              (FileManager.Build_Answers false false "report-1"%string None)
              ref_noon_ms (@FileManager.Build_Db js_number [] []))
    as (H1 & H2 & H3 & _).
  split; [exact H1|]. split; [exact H2|].
  fold stats in H3. rewrite H3. vm_compute. reflexivity.
Defined.

(** C5, as stated, fails: with a single order, created the day before
    the reference date, no order matches the window and yet the order
    count and the pending count are 1. *)
Lemma fetchStats_counts_orders_of_other_days :
  let rows := [ sample_row "order-1" "pending" (at_time (ref_day - 1) 12 0 0 0) ] in
  let stats := Dashboard.fetchStats all_answered ref_noon_ms (dashboard_db rows) in
  iso_date ref_noon_ms = ref_day
  /\ filter (Schema.in_day_window ref_day) rows = []
  /\ Dashboard.totalOrders stats = 1%Z
  /\ Dashboard.pendingOrders stats = 1%Z
  /\ Dashboard.todayRevenue stats = 0%float.
Proof.
  intros rows stats. split; [reflexivity|]. split; [reflexivity|].
  split; [reflexivity|]. split; [reflexivity|]. vm_compute. reflexivity.
Qed.

(** ** Sales reports *)

Section ReportFacts.
Context {N : Number}.

(** A row sent without [id] never meets an existing one: with a fresh
    identifier the upsert is an insert, whatever the dates already in the
    table. *)
Lemma upsert_fresh_appends (uuid : string)
  (table : list FileManager.SalesReport) (values : FileManager.Values) :
  FileManager.values_id values = None ->
  ~ In uuid (map FileManager.id table) ->
  exists r,
    FileManager.upsert uuid table values = table ++ [r]
    /\ FileManager.id r = uuid
    /\ FileManager.report_date r = FileManager.values_report_date values.
Proof.
  intros Hid Hfresh. unfold FileManager.upsert. rewrite Hid.
  destruct (existsb (fun r => String.eqb (FileManager.id r) uuid) table) eqn:Hex.
  - exfalso. apply Hfresh.
    apply existsb_exists in Hex as (r & Hin & Heq).
    apply String.eqb_eq in Heq. rewrite <- Heq. now apply in_map.
  - eexists. split; [reflexivity|]. now split.
Qed.

Lemma generateSalesReport_adds_a_record (answers : FileManager.Answers)
  (date : Z) (db : FileManager.Db) :
  FileManager.query_error answers = false ->
  FileManager.save_error answers = false ->
  ~ In (FileManager.gen_random_uuid answers)
       (map FileManager.id (FileManager.sales_reports db)) ->
  exists r,
    FileManager.sales_reports (fst (FileManager.generateSalesReport answers date db))
    = FileManager.sales_reports db ++ [r]
    /\ FileManager.report_date r = iso_date date.
Proof.
  intros Hq Hs Hfresh. unfold FileManager.generateSalesReport.
  rewrite Hq, Hs. simpl.
  match goal with
  | |- context [FileManager.upsert ?u ?t ?v] =>
      destruct (upsert_fresh_appends u t v eq_refl Hfresh) as (r & -> & _ & Hd)
  end.
  exists r. split; [reflexivity|exact Hd].
Qed.

End ReportFacts.

(** C9 on the code: generating the report of the same date twice, from
    an empty [sales_reports] table, leaves two records of that date; the
    second generation has overwritten nothing. *)
Theorem generateSalesReport_twice_two_records :
  let db0 := @FileManager.Build_Db js_number [] [] in
  let db1 := fst (FileManager.generateSalesReport (report_saved "report-1")
                                                  ref_noon_ms db0) in
  let db2 := fst (FileManager.generateSalesReport (report_saved "report-2")
                                                  ref_noon_ms db1) in
  map FileManager.report_date (FileManager.sales_reports db1) = [ref_day]
  /\ map FileManager.report_date (FileManager.sales_reports db2) = [ref_day; ref_day]
  /\ map FileManager.id (FileManager.sales_reports db2)
     = ["report-1"%string; "report-2"%string].
Proof. repeat split. Qed.

(** * Further properties of the pages *)

(** ** The cart under all its controls *)

Section CartEventFacts.
Context {N : Number}.
Import CreateOrder.

Lemma NoDup_map_filter (A B : Type) (f : A -> B) (g : A -> bool) (l : list A) :
  NoDup (map f l) -> NoDup (map f (filter g l)).
Proof.
  induction l as [|x l IH]; simpl; intros Hnd; [constructor|].
  inversion Hnd as [|y ys Hx Hnd']; subst.
  destruct (g x); simpl; [|now apply IH].
  constructor; [|now apply IH].
  intros Hin. apply Hx. apply in_map_iff in Hin as (z & Hz & Hin).
  apply filter_In in Hin as [Hin _]. apply in_map_iff. now exists z.
Qed.

Lemma addToOrder_NoDup (cart : list OrderItem) (p : Product) :
  NoDup (map line_id cart) -> NoDup (map line_id (addToOrder cart p)).
Proof.
  intros Hnd. unfold addToOrder.
  destruct (find (fun item => String.eqb (id (product item)) (id p)) cart)
    eqn:Hfind.
  - now rewrite map_line_id_set.
  - apply find_line_none in Hfind. rewrite map_app. simpl.
    apply NoDup_app_remove_l with (l := []). simpl.
    apply Permutation_NoDup with (l := id p :: map line_id cart).
    + apply Permutation_cons_append.
    + now constructor.
Qed.

Lemma updateQuantity_NoDup (cart : list OrderItem) (i : string) (n : Z) :
  NoDup (map line_id cart) -> NoDup (map line_id (updateQuantity cart i n)).
Proof.
  intros Hnd. unfold updateQuantity. destruct (n =? 0)%Z.
  - now apply NoDup_map_filter.
  - now rewrite map_line_id_set.
Qed.

Lemma on_event_NoDup (cart : list OrderItem) (e : CartEvent) :
  NoDup (map line_id cart) -> NoDup (map line_id (on_event cart e)).
Proof.
  intros Hnd. destruct e as [p|i|i]; simpl.
  - now apply addToOrder_NoDup.
  - destruct (line_quantity cart i); [now apply updateQuantity_NoDup|exact Hnd].
  - destruct (line_quantity cart i); [now apply updateQuantity_NoDup|exact Hnd].
Qed.

(** The products clicked in a sequence of events. *)
Lemma on_event_ids (cart : list OrderItem) (e : CartEvent) (i : string) :
  In i (map line_id (on_event cart e)) ->
  In i (map line_id cart)
  \/ (exists p, e = ClickProduct p /\ id p = i).
Proof.
  destruct e as [p|j|j]; simpl.
  - unfold addToOrder.
    destruct (find (fun item => String.eqb (id (product item)) (id p)) cart).
    + rewrite map_line_id_set. now left.
    + rewrite map_app, in_app_iff. simpl. intros [H|[H|[]]]; [now left|].
      right. now exists p.
  - destruct (line_quantity cart j); [|now left].
    unfold updateQuantity. destruct (_ =? 0)%Z.
    + intros H. left. apply in_map_iff in H as (x & Hx & Hin).
      apply filter_In in Hin as [Hin _]. apply in_map_iff. now exists x.
    + rewrite map_line_id_set. now left.
  - destruct (line_quantity cart j); [|now left].
    unfold updateQuantity. destruct (_ =? 0)%Z.
    + intros H. left. apply in_map_iff in H as (x & Hx & Hin).
      apply filter_In in Hin as [Hin _]. apply in_map_iff. now exists x.
    + rewrite map_line_id_set. now left.
Qed.

(** What every cart reached through the page's controls satisfies. *)
Lemma reachable_cart (events : list CartEvent) :
  let cart := fold_left on_event events [] in
  NoDup (map line_id cart)
  /\ Forall (fun item => (1 <= quantity item)%Z) cart
  /\ Forall (fun item =>
               exists p, In (ClickProduct p) events /\ id p = line_id item) cart.
Proof.
  induction events as [|e events (Hnd & Hq & Hc)] using rev_ind; simpl.
  - repeat split; constructor.
  - rewrite fold_left_snoc. split; [|split].
    + now apply on_event_NoDup.
    + now apply on_event_positive.
    + apply Forall_forall. intros item Hin.
      destruct (on_event_ids _ e (line_id item) (in_map line_id _ _ Hin))
        as [Hold|(p & -> & Hp)].
      * apply in_map_iff in Hold as (item' & Hid & Hin').
        rewrite Forall_forall in Hc. destruct (Hc _ Hin') as (p & Hp & Hidp).
        exists p. split; [apply in_or_app; now left|congruence].
      * exists p. split; [apply in_or_app; right; now left|exact Hp].
Qed.

(** X1. Whatever the sequence of clicks on product cards and on the minus
    and plus buttons, the cart never holds two lines for one product,
    every quantity in it is at least 1, and every line is for a product
    whose card was clicked. *)
Theorem cart_events_invariant (events : list CartEvent) :
  let cart := fold_left on_event events [] in
  NoDup (map line_id cart)
  /\ Forall (fun item => (1 <= quantity item)%Z) cart
  /\ Forall (fun item =>
               exists p, In (ClickProduct p) events /\ id p = line_id item) cart.
Proof. exact (reachable_cart events). Qed.

Lemma set_quantity_absent (cart : list OrderItem) (i : string) (n : Z) :
  ~ In i (map line_id cart) ->
  map (fun item =>
         if String.eqb (id (product item)) i
         then {| product := product item; quantity := n |} else item) cart
  = cart.
Proof.
  induction cart as [|item cart IH]; simpl; intros Hnin; [reflexivity|].
  destruct (String.eqb_spec (id (product item)) i) as [Heq|_].
  - exfalso. apply Hnin. now left.
  - f_equal. apply IH. intros H. apply Hnin. now right.
Qed.

Lemma set_quantity_same (cart : list OrderItem) (i : string) (q : Z) :
  NoDup (map line_id cart) ->
  line_quantity cart i = Some q ->
  map (fun item =>
         if String.eqb (id (product item)) i
         then {| product := product item; quantity := q |} else item) cart
  = cart.
Proof.
  unfold line_quantity.
  induction cart as [|item cart IH]; simpl; intros Hnd Hq; [reflexivity|].
  inversion Hnd as [|x xs Hx Hnd']; subst.
  destruct (String.eqb_spec (id (product item)) i) as [Heq|Hne].
  - simpl in Hq. injection Hq as <-. f_equal.
    + now destruct item.
    + apply set_quantity_absent. unfold line_id in Hx at 1. now rewrite <- Heq.
  - f_equal. now apply IH.
Qed.

Lemma line_quantity_set (cart : list OrderItem) (i : string) (q n : Z) :
  line_quantity cart i = Some q ->
  line_quantity
    (map (fun item =>
            if String.eqb (id (product item)) i
            then {| product := product item; quantity := n |} else item) cart) i
  = Some n.
Proof.
  unfold line_quantity.
  induction cart as [|item cart IH]; simpl; intros Hq; [discriminate|].
  destruct (String.eqb (id (product item)) i) eqn:E; simpl.
  - now rewrite E.
  - rewrite E. now apply IH.
Qed.

Lemma set_quantity_twice (cart : list OrderItem) (i : string) (n m : Z) :
  map (fun item =>
         if String.eqb (id (product item)) i
         then {| product := product item; quantity := m |} else item)
      (map (fun item =>
              if String.eqb (id (product item)) i
              then {| product := product item; quantity := n |} else item) cart)
  = map (fun item =>
           if String.eqb (id (product item)) i
           then {| product := product item; quantity := m |} else item) cart.
Proof.
  rewrite map_map. apply map_ext. intros item.
  destruct (String.eqb (id (product item)) i) eqn:E; simpl; now rewrite E.
Qed.

Lemma updateQuantity_nonzero (cart : list OrderItem) (i : string) (n : Z) :
  n <> 0%Z ->
  updateQuantity cart i n
  = map (fun item =>
           if String.eqb (id (product item)) i
           then {| product := product item; quantity := n |} else item) cart.
Proof.
  intros Hn. unfold updateQuantity.
  destruct (Z.eqb_spec n 0) as [|_]; [contradiction|reflexivity].
Qed.

(** X2. On any cart the page can reach, pressing plus and then minus on
    a line gives the cart back unchanged (and both do nothing for a
    product that is not in the cart). *)
Theorem plus_then_minus_restores_cart (events : list CartEvent) (i : string) :
  let cart := fold_left on_event events [] in
  on_event (on_event cart (ClickPlus i)) (ClickMinus i) = cart.
Proof.
  intros cart.
  destruct (reachable_cart events) as (Hnd & Hq & _). fold cart in Hnd, Hq.
  simpl. destruct (line_quantity cart i) as [q|] eqn:Hline.
  - assert (Hge : (1 <= q)%Z).
    { destruct (line_quantity_in _ _ Hline) as (item & Hin & <-).
      rewrite Forall_forall in Hq. now apply Hq. }
    rewrite (@updateQuantity_nonzero cart i (q + 1)%Z) by lia.
    rewrite (@line_quantity_set cart i q (q + 1)%Z Hline).
    rewrite updateQuantity_nonzero by lia.
    rewrite set_quantity_twice. replace (q + 1 - 1)%Z with q by lia.
    now apply set_quantity_same.
  - now rewrite Hline.
Qed.

Lemma find_append (A : Type) (f : A -> bool) (l l' : list A) :
  find f (l ++ l') = match find f l with
                     | Some x => Some x
                     | None => find f l'
                     end.
Proof.
  induction l as [|x l IH]; simpl; [reflexivity|].
  now destruct (f x).
Qed.

(** X3. Each line of the cart carries the product as it was on the first
    click for its identifier: later clicks, even with another price or
    name under the same identifier, change the quantity only. *)
Theorem addToOrder_keeps_first_product (ps : list Product) :
  Forall (fun item =>
            find (fun p => String.eqb (id p) (line_id item)) ps
            = Some (product item))
         (fold_left addToOrder ps []).
Proof.
  assert (H : Forall (fun item =>
                        find (fun p => String.eqb (id p) (line_id item)) ps
                        = Some (product item))
                     (fold_left addToOrder ps [])
              /\ (forall i, ~ In i (map line_id (fold_left addToOrder ps [])) ->
                            find (fun p => String.eqb (id p) i) ps = None)).
  { induction ps as [|p ps (IH & Hnone)] using rev_ind; simpl.
    - split; [constructor|reflexivity].
    - rewrite fold_left_snoc. set (cart := fold_left addToOrder ps []) in *.
      unfold addToOrder.
      destruct (find (fun item => String.eqb (id (product item)) (id p)) cart)
        eqn:Hfind.
      + split.
        * rewrite Forall_map. eapply Forall_impl; [|exact IH].
          intros item Hitem. simpl in Hitem. rewrite find_append.
          replace (line_id (if String.eqb (id (product item)) (id p)
                            then {| product := product item;
                                    quantity := quantity item + 1 |}
                            else item))
            with (line_id item)
            by (now destruct (String.eqb (id (product item)) (id p))).
          rewrite Hitem.
          now destruct (String.eqb (id (product item)) (id p)).
        * intros i Hnin. rewrite map_line_id_set in Hnin.
          rewrite find_append, (Hnone i Hnin). simpl.
          destruct (String.eqb_spec (id p) i) as [Heq|_]; [|reflexivity].
          exfalso. apply Hnin. rewrite <- Heq.
          now apply find_line_some in Hfind.
      + apply find_line_none in Hfind. split.
        * apply Forall_app. split.
          -- eapply Forall_impl; [|exact IH]. intros item Hitem. simpl in Hitem.
             now rewrite find_append, Hitem.
          -- constructor; [|constructor]. unfold line_id. simpl.
             rewrite find_append, (Hnone (id p) Hfind). simpl.
             now rewrite String.eqb_refl.
        * intros i Hnin. rewrite map_app, in_app_iff in Hnin. simpl in Hnin.
          rewrite find_append, Hnone by tauto. simpl.
          destruct (String.eqb_spec (id p) i) as [Heq|_]; [|reflexivity].
          exfalso. apply Hnin. right. now left. }
  exact (proj1 H).
Qed.

End CartEventFacts.

Section NewLineFacts.
Context {N : Number}.
Import CreateOrder.

(** X4. A click on a product that is not yet in the cart adds that
    product's amount at the end of the sum: the new total is the old
    total plus the product's price times 1, one more addition in the
    arithmetic of the code. *)
Theorem addToOrder_new_product_adds_its_price (cart : list OrderItem) (p : Product) :
  ~ In (id p) (map line_id cart) ->
  getTotalAmount (addToOrder cart p)
  = add (getTotalAmount cart) (mul (price p) (of_int 1)).
Proof.
  intros Hnew. rewrite (addToOrder_new cart p Hnew).
  unfold getTotalAmount. now rewrite fold_left_snoc.
Qed.

End NewLineFacts.

(** X4 on a cart of two pizzas to which a soda is added: 25.98 + 2.99. *)
Lemma addToOrder_new_product_adds_its_price_witness :
  let cart := [line pizza 2] in
  CreateOrder.getTotalAmount (CreateOrder.addToOrder cart soda)
  = PrimFloat.add (CreateOrder.getTotalAmount cart)
                  (PrimFloat.mul (of_cents 299) (float_of_Z 1))
  /\ CreateOrder.getTotalAmount (CreateOrder.addToOrder cart soda) = of_cents 2897.
Proof.
  intros cart. split; [|vm_compute; reflexivity].
  apply (@addToOrder_new_product_adds_its_price js_number cart soda).
  simpl. intros [H|[]]. discriminate.
Defined.

(** ** Table numbers and the written order *)

Lemma parse_digits_stop (rest : string) (acc : option Z) :
  not_alphanumeric_start rest = true -> parse_digits 10 rest acc = acc.
Proof.
  destruct rest as [|c rest]; simpl; [reflexivity|].
  now destruct (digit_value c).
Qed.

Lemma parse_digits_uint (d : uint) (rest : string) (k : nat) (acc : option Z) :
  not_alphanumeric_start rest = true ->
  acc = Some (Z.of_nat k) \/ (acc = None /\ k = 0%nat) ->
  parse_digits 10 (NilEmpty.string_of_uint d ++ rest) acc
  = match d with
    | Nil => acc
    | _ => Some (Z.of_nat (Nat.of_uint_acc d k))
    end.
Proof.
  intros Hrest. revert k acc.
  induction d as [|d IH|d IH|d IH|d IH|d IH|d IH|d IH|d IH|d IH|d IH];
    intros k acc Hacc;
    [ now apply parse_digits_stop | .. ];
    cbn [NilEmpty.string_of_uint append parse_digits Nat.of_uint_acc];
    match goal with
    | |- context [digit_value ?c] =>
        let v := eval vm_compute in (digit_value c) in
        change (digit_value c) with v
    end; cbv iota; change (_ <? 10)%Z with true; cbv iota;
    match goal with
    | |- parse_digits 10 _ (Some ?a) = Some (Z.of_nat (Nat.of_uint_acc _ ?k')) =>
        assert (E : a = Z.of_nat k')
          by (rewrite ?Nat.tail_mul_spec; destruct Hacc as [->|[-> ->]]; lia);
        rewrite (IH k' (Some a)) by (left; now rewrite E);
        destruct d; try reflexivity; now rewrite E
    end.
Qed.

Lemma decimal_radix (s : string) :
  match s with
  | EmptyString => True
  | String c _ => c <> "x"%char /\ c <> "X"%char
  end ->
  match s with
  | String "x"%char rest0 | String "X"%char rest0 => (16%Z, rest0)
  | _ => (10%Z, String "0" s)
  end = (10%Z, String "0" s).
Proof.
  destruct s as [|c s]; [reflexivity|].
  intros [Hx HX].
  destruct c as [[] [] [] [] [] [] [] []]; try reflexivity;
    exfalso; (now apply Hx) || (now apply HX).
Qed.

Lemma not_alphanumeric_not_x (rest : string) :
  not_alphanumeric_start rest = true ->
  match rest with
  | EmptyString => True
  | String c _ => c <> "x"%char /\ c <> "X"%char
  end.
Proof.
  destruct rest as [|c rest]; simpl; [trivial|].
  intros H. split; intros ->; discriminate.
Qed.

Lemma skip_white_space_digit (c : ascii) (rest : string) :
  digit_value c <> None -> skip_white_space (String c rest) = String c rest.
Proof.
  intros Hc.
  destruct c as [[] [] [] [] [] [] [] []];
    try (exfalso; apply Hc; reflexivity);
    destruct rest as [|c2 [|c3 rest]]; reflexivity.
Qed.

Lemma parseInt_uint (d : uint) (rest : string) :
  not_alphanumeric_start rest = true ->
  parseInt (NilZero.string_of_uint d ++ rest)
  = float_of_Z (Z.of_nat (Nat.of_uint d)).
Proof.
  intros Hrest. unfold parseInt, Nat.of_uint.
  assert (Hfinish : forall d',
             d' <> Nil ->
             match parse_digits 10 (NilEmpty.string_of_uint d' ++ rest) None with
             | Some n =>
                 if (1 =? -1)%Z && (n =? 0)%Z then PrimFloat.neg_zero
                 else float_of_Z (1 * n)
             | None => NaN
             end = float_of_Z (Z.of_nat (Nat.of_uint_acc d' 0))).
  { intros d' Hd'.
    rewrite (@parse_digits_uint d' rest 0 None Hrest) by (right; now split).
    destruct d'; [contradiction|..]; cbn [Z.eqb andb]; f_equal; lia. }
  destruct d;
    cbn [NilZero.string_of_uint NilEmpty.string_of_uint append];
    rewrite skip_white_space_digit by (vm_compute; discriminate);
    cbv beta iota zeta;
    try (apply (Hfinish (D1 d)) || apply (Hfinish (D2 d)) || apply (Hfinish (D3 d))
         || apply (Hfinish (D4 d)) || apply (Hfinish (D5 d)) || apply (Hfinish (D6 d))
         || apply (Hfinish (D7 d)) || apply (Hfinish (D8 d)) || apply (Hfinish (D9 d)));
    try discriminate.
  - rewrite decimal_radix by now apply not_alphanumeric_not_x.
    cbn [parse_digits]. change (digit_value "0") with (Some 0%Z). cbv iota.
    change (0 <? 10)%Z with true. cbv iota.
    now rewrite parse_digits_stop.
  - rewrite decimal_radix.
    + apply (Hfinish (D0 d)). discriminate.
    + destruct d; simpl; try (split; discriminate).
      now apply not_alphanumeric_not_x.
Qed.

Lemma parseInt_decimal (n : nat) (rest : string) :
  not_alphanumeric_start rest = true ->
  parseInt (decimal n ++ rest) = float_of_Z (Z.of_nat n).
Proof.
  intros Hrest. unfold decimal. rewrite parseInt_uint by exact Hrest.
  now rewrite DecimalNat.Unsigned.of_to.
Qed.

Section WrittenOrderFacts.
Context {N : Number}.
Import CreateOrder.

(** What a submission that succeeds has passed and written. *)
Lemma handleSubmitOrder_created (store : Store) (f : Form) (db db' : Db)
  (oid : string) :
  handleSubmitOrder store f db = (db', Created oid) ->
  orderItems f <> []
  /\ (orderType f = dine_in -> tableNumber f <> ""%string)
  /\ (orderType f = delivery ->
      customerName f <> ""%string /\ customerAddress f <> ""%string
      /\ customerLocation f <> ""%string)
  /\ orders db' = orders db ++ [(oid, make_orderData f)]
  /\ order_items db' = order_items db ++ make_orderItemsData oid (orderItems f).
Proof.
  unfold handleSubmitOrder. intros H.
  destruct (orderItems f) as [|item items] eqn:Hitems; [discriminate|].
  cbn [List.length Nat.eqb] in H.
  destruct (orderType f) eqn:Htype; cbn [is_dine_in is_delivery andb] in H.
  - destruct (is_empty_spec (tableNumber f)) as [|Ht]; [discriminate|].
    destruct (insert_order store (make_orderData f)) as [oid'|]; [|discriminate].
    destruct (insert_items store _); [|discriminate].
    injection H as <- <-. simpl.
    repeat split; try discriminate; auto.
  - destruct (is_empty_spec (customerName f)) as [|Hn]; [discriminate|].
    destruct (is_empty_spec (customerAddress f)) as [|Ha]; [discriminate|].
    destruct (is_empty_spec (customerLocation f)) as [|Hl]; [discriminate|].
    cbn [orb] in H.
    destruct (insert_order store (make_orderData f)) as [oid'|]; [|discriminate].
    destruct (insert_items store _); [|discriminate].
    injection H as <- <-. simpl.
    repeat split; try discriminate; auto.
Qed.

(** X5. A dine-in order whose table number was typed as a whole number,
    possibly followed by a fraction or other text that starts with
    neither a digit nor a letter, is submitted with the double that the
    digits denote, [float_of_Z] of the whole number: the tail is dropped
    and does not round the whole number up. *)
Theorem table_number_stored_as_typed (store : Store) (f : Form) (db db' : Db)
  (oid : string) (n : nat) (rest : string) :
  orderType f = dine_in ->
  tableNumber f = (decimal n ++ rest)%string ->
  not_alphanumeric_start rest = true ->
  handleSubmitOrder store f db = (db', Created oid) ->
  exists orderData,
    orders db' = orders db ++ [(oid, orderData)]
    /\ table_number orderData = Some (float_of_Z (Z.of_nat n)).
Proof.
  intros Htype Htable Hrest H.
  apply handleSubmitOrder_created in H as (_ & _ & _ & Horders & _).
  exists (make_orderData f). split; [exact Horders|].
  unfold make_orderData. simpl. rewrite Htype, Htable. simpl.
  now rewrite parseInt_decimal.
Qed.

(** X6. A submission never leaves an item row without its order: if
    every stored item belonged to a stored order before, the same holds
    afterwards, whatever the store answers.  When the submission fails
    after validation, no item has been written, and the order row either
    has not been written or stays behind alone (the store accepted the
    order and refused the items). *)
Theorem handleSubmitOrder_items_follow_orders (store : Store) (f : Form) (db : Db) :
  let result := handleSubmitOrder store f db in
  (items_have_orders db -> items_have_orders (fst result))
  /\ (snd result = Failed ->
      order_items (fst result) = order_items db
      /\ (orders (fst result) = orders db
          \/ exists oid,
               insert_order store (make_orderData f) = Some oid
               /\ insert_items store (make_orderItemsData oid (orderItems f)) = false
               /\ orders (fst result) = orders db ++ [(oid, make_orderData f)])).
Proof.
  unfold handleSubmitOrder, items_have_orders.
  destruct (List.length (orderItems f) =? 0)%nat; simpl;
    [split; [tauto|discriminate]|].
  destruct (is_dine_in (orderType f) && is_empty (tableNumber f)); simpl;
    [split; [tauto|discriminate]|].
  destruct (is_delivery (orderType f)
            && (is_empty (customerName f) || is_empty (customerAddress f)
                || is_empty (customerLocation f))); simpl;
    [split; [tauto|discriminate]|].
  destruct (insert_order store (make_orderData f)) as [oid|] eqn:Horder; simpl.
  - destruct (insert_items store (make_orderItemsData oid (orderItems f)))
      eqn:Hitems; simpl.
    + split; [|discriminate]. intros Hdb. apply Forall_app. split.
      * eapply Forall_impl; [|exact Hdb]. intros r Hr. simpl in Hr.
        rewrite map_app. apply in_or_app. now left.
      * apply Forall_forall. intros r Hr.
        apply in_map_iff in Hr as (item & <- & _). simpl.
        rewrite map_app. apply in_or_app. right. now left.
    + split.
      * intros Hdb. eapply Forall_impl; [|exact Hdb]. intros r Hr. simpl in Hr.
        rewrite map_app. apply in_or_app. now left.
      * intros _. split; [reflexivity|]. right. exists oid. now repeat split.
  - split; [tauto|]. intros _. split; [reflexivity|now left].
Qed.

(** X7. A stored order carries the fields of its own type only: a
    dine-in order has a table number field and no customer fields; a
    delivery order has no table number and the customer name, address
    and location of the form, none of them empty. *)
Theorem stored_order_fields_match_type (store : Store) (f : Form) (db db' : Db)
  (oid : string) :
  handleSubmitOrder store f db = (db', Created oid) ->
  exists orderData,
    orders db' = orders db ++ [(oid, orderData)]
    /\ order_type orderData = orderType f
    /\ match order_type orderData with
       | dine_in =>
           table_number orderData = Some (parseInt (tableNumber f))
           /\ customer_name orderData = None
           /\ customer_address orderData = None
           /\ customer_location orderData = None
       | delivery =>
           table_number orderData = None
           /\ customer_name orderData = Some (customerName f)
           /\ customer_address orderData = Some (customerAddress f)
           /\ customer_location orderData = Some (customerLocation f)
           /\ customerName f <> ""%string
           /\ customerAddress f <> ""%string
           /\ customerLocation f <> ""%string
       end.
Proof.
  intros H.
  apply handleSubmitOrder_created in H as (_ & _ & Hdelivery & Horders & _).
  exists (make_orderData f). split; [exact Horders|]. split; [reflexivity|].
  unfold make_orderData. simpl.
  destruct (orderType f); simpl.
  - now repeat split.
  - destruct (Hdelivery eq_refl) as (Hn & Ha & Hl). now repeat split.
Qed.

(** X8. When the cart was built with the page's controls, a submission
    that succeeds writes at least one item row, one per product and no
    two for the same product, each with a quantity of at least 1. *)
Theorem built_cart_submission_rows (events : list CartEvent) (store : Store)
  (f : Form) (db db' : Db) (oid : string) :
  orderItems f = fold_left on_event events [] ->
  handleSubmitOrder store f db = (db', Created oid) ->
  exists rows,
    order_items db' = order_items db ++ rows
    /\ rows <> []
    /\ List.length rows = List.length (orderItems f)
    /\ NoDup (map product_id rows)
    /\ Forall (fun r => (1 <= item_quantity r)%Z) rows.
Proof.
  intros Hcart H.
  apply handleSubmitOrder_created in H as (Hne & _ & _ & _ & Hitems).
  destruct (reachable_cart events) as (Hnd & Hq & _).
  rewrite <- Hcart in Hnd, Hq.
  exists (make_orderItemsData oid (orderItems f)). split; [exact Hitems|].
  unfold make_orderItemsData. repeat split.
  - destruct (orderItems f); [contradiction|discriminate].
  - apply length_map.
  - rewrite map_map. exact Hnd.
  - rewrite Forall_map. exact Hq.
Qed.

End WrittenOrderFacts.

(** ** The list of orders: filters and search *)

Section OrdersListFacts.
Context {N : Number}.
Import OrdersList.

Lemma filter_twice (A : Type) (f g : A -> bool) (l : list A) :
  filter f (filter g l) = filter (fun x => g x && f x) l.
Proof.
  induction l as [|x l IH]; simpl; [reflexivity|].
  destruct (g x); simpl; [|exact IH].
  destruct (f x); now rewrite IH.
Qed.

Lemma filter_everything (A : Type) (f : A -> bool) (l : list A) :
  (forall x, f x = true) -> filter f l = l.
Proof.
  intros Hf. induction l as [|x l IH]; simpl; [reflexivity|].
  now rewrite Hf, IH.
Qed.

(** X9. The three filters of the orders list combine as a conjunction:
    filtering by status, type and search text at once is the same as
    searching first, then filtering by type, then by status; and with
    "all", "all" and an empty search box every order is listed. *)
Theorem filteredOrders_conjunctive (statusFilter typeFilter searchQuery : string)
  (orders : list Orders.Order) :
  filteredOrders statusFilter typeFilter searchQuery orders
  = filteredOrders statusFilter "all" ""
      (filteredOrders "all" typeFilter ""
         (filteredOrders "all" "all" searchQuery orders))
  /\ filteredOrders "all" "all" "" orders = orders.
Proof.
  split.
  - unfold filteredOrders. rewrite !filter_twice. apply filter_ext.
    intros order. simpl.
    destruct (negb (String.eqb statusFilter "all")
              && negb (String.eqb (Orders.status order) statusFilter));
      destruct (negb (String.eqb typeFilter "all")
                && negb (String.eqb
                           (order_type_name (Schema.order_type (Orders.row order)))
                           typeFilter));
      destruct (negb (CreateOrder.is_empty searchQuery)
                && negb (includes (toLowerCase (Orders.id order))
                                  (toLowerCase searchQuery)));
      reflexivity.
  - unfold filteredOrders. now apply filter_everything.
Qed.

Lemma includes_prefix (s q : string) :
  String.prefix q s = true -> includes s q = true.
Proof. intros H. destruct s; simpl in *; now rewrite H. Qed.

Lemma prefix_substring (n : nat) (s : string) :
  String.prefix (String.substring 0 n s) s = true.
Proof.
  revert s. induction n as [|n IH]; intros s.
  - now destruct s.
  - destruct s as [|c s]; simpl; [reflexivity|].
    destruct (ascii_dec c c) as [_|Hne]; [apply IH|contradiction].
Qed.

Lemma toLowerCase_substring (n : nat) (s : string) :
  toLowerCase (String.substring 0 n s) = String.substring 0 n (toLowerCase s).
Proof.
  revert s. induction n as [|n IH]; intros s.
  - now destruct s.
  - destruct s as [|c s]; simpl; [reflexivity|]. now rewrite IH.
Qed.

(** X10. Typing into the search box the order number that a card shows
    (the first eight characters of the identifier, in any mix of upper
    and lower case in the identifier itself) lists that order, under any
    status and type filter that the order passes. *)
Theorem search_by_shown_number_finds_order (statusFilter typeFilter : string)
  (orders : list Orders.Order) (o : Orders.Order) :
  In o orders ->
  statusFilter = "all"%string \/ statusFilter = Orders.status o ->
  typeFilter = "all"%string
  \/ typeFilter = order_type_name (Schema.order_type (Orders.row o)) ->
  In o (filteredOrders statusFilter typeFilter (shown_number o) orders).
Proof.
  intros Hin Hstatus Htype. unfold filteredOrders. apply filter_In.
  split; [exact Hin|].
  assert (Hs : negb (String.eqb statusFilter "all")
               && negb (String.eqb (Orders.status o) statusFilter) = false).
  { destruct Hstatus as [->| ->]; [reflexivity|].
    rewrite String.eqb_refl. apply andb_false_r. }
  assert (Ht : negb (String.eqb typeFilter "all")
               && negb (String.eqb
                          (order_type_name (Schema.order_type (Orders.row o)))
                          typeFilter) = false).
  { destruct Htype as [->| ->]; [reflexivity|].
    rewrite String.eqb_refl. apply andb_false_r. }
  rewrite Hs, Ht. unfold shown_number, slice_0_8.
  rewrite toLowerCase_substring.
  rewrite (includes_prefix _ _ (prefix_substring 8 (toLowerCase (Orders.id o)))).
  now rewrite andb_false_r.
Qed.

(** X11. Once a status change has been answered with no error, every
    copy of the order in the page's state is listed under the filter of
    its new status and under no other status filter. *)
Theorem updated_order_moves_between_status_filters
  (failure : bool) (me : string) (rendered : list Orders.Order)
  (p p' : Orders.Page) (orderId newStatus description : string)
  (o : Orders.Order) :
  Orders.updateOrderStatus failure me rendered p orderId newStatus
  = (p', ToastSuccess description) ->
  In o (Orders.orders p') ->
  Orders.id o = orderId ->
  In o (filteredOrders newStatus "all" "" (Orders.orders p'))
  /\ (forall s, s <> "all"%string -> s <> newStatus ->
                ~ In o (filteredOrders s "all" "" (Orders.orders p'))).
Proof.
  unfold Orders.updateOrderStatus. intros Haccepted Hin Hid.
  destruct (Schema.update_status failure me (Orders.table p) orderId newStatus)
    as [table'|]; [|discriminate].
  injection Haccepted as <- _. simpl in Hin |- *.
  assert (Hstatus : Orders.status o = newStatus).
  { apply in_map_iff in Hin as (o0 & Ho & _).
    destruct (String.eqb_spec (Orders.id o0) orderId) as [_|Hne].
    - now subst o.
    - subst o. contradiction. }
  split.
  - unfold filteredOrders. apply filter_In. split; [exact Hin|].
    rewrite Hstatus, String.eqb_refl. simpl. now rewrite andb_false_r.
  - intros s Hall Hs Hfilter. unfold filteredOrders in Hfilter.
    apply filter_In in Hfilter as [_ Hkeep]. rewrite Hstatus in Hkeep.
    apply String.eqb_neq in Hall. apply not_eq_sym in Hs.
    apply String.eqb_neq in Hs. rewrite Hall, Hs in Hkeep. discriminate.
Qed.

(** X12. A card lists at most three item lines and announces the rest:
    the lines shown and the "more" count always add up to the order's
    number of items, and the "more" line appears only beyond three. *)
Theorem card_items_add_up (o : Orders.Order) :
  let n := List.length (Orders.order_items o) in
  (List.length (shown_items o)
   + match more_items o with Some m => m | None => 0 end = n)%nat
  /\ (more_items o = None <-> (n <= 3)%nat)
  /\ (forall m, more_items o = Some m -> (0 < m)%nat)
  /\ shown_items o ++ skipn 3 (Orders.order_items o) = Orders.order_items o.
Proof.
  unfold shown_items, more_items. cbv zeta.
  rewrite length_firstn.
  destruct (Nat.ltb_spec 3 (List.length (Orders.order_items o))) as [Hlt|Hge].
  - repeat split; try lia; try discriminate.
    + intros m [= <-]. lia.
    + apply firstn_skipn.
  - repeat split; try lia; try discriminate. apply firstn_skipn.
Qed.

End OrdersListFacts.

(** ** More on grouping by date *)

Section GroupingOrderFacts.
Context {N : Number}.
Variable local_offset : Z -> Z.
Import Orders.

Local Abbreviation key_of := (dateKey local_offset).

(** The facts about the sorted groups, from the loop's invariant. *)
Lemma groups_facts (orders : list Order) :
  let groups := groupOrdersByDate local_offset orders in
  StronglySorted later groups
  /\ Forall (bucket_of_date local_offset orders) groups
  /\ Permutation (List.concat (map snd groups)) orders.
Proof.
  destruct (collect_invariant local_offset orders) as (Hnd & Hall & Hperm).
  unfold groupOrdersByDate. fold (groups_of local_offset orders).
  change (fun a b : Z * list Order => (getTime (fst b) - getTime (fst a))%Z)
    with by_date_descending.
  simpl. split; [|split].
  - now apply sort_by_later.
  - eapply Permutation_Forall; [|exact Hall].
    symmetry. apply sort_by_permutation.
  - eapply Permutation_trans; [|exact Hperm].
    rewrite <- !flat_map_concat_map.
    apply Permutation_flat_map, sort_by_permutation.
Qed.

Lemma length_concat_sum (A : Type) (ls : list (list A)) :
  List.length (List.concat ls) = list_sum (map (@List.length A) ls).
Proof.
  induction ls as [|l ls IH]; simpl; [reflexivity|].
  now rewrite length_app, IH.
Qed.

(** X13. The orders page shows "No orders found" (no group at all)
    exactly when no order passes the filters, and otherwise the sizes
    announced on the date headers add up to the number of orders. *)
Theorem groups_empty_iff_no_orders (orders : list Order) :
  let groups := groupOrdersByDate local_offset orders in
  (groups = [] <-> orders = [])
  /\ list_sum (map (fun g => List.length (snd g)) groups) = List.length orders.
Proof.
  destruct (groups_facts orders) as (_ & _ & Hperm). simpl in *. split.
  - split.
    + intros Hnil. rewrite Hnil in Hperm. simpl in Hperm.
      now apply Permutation_nil in Hperm.
    + intros ->. reflexivity.
  - rewrite <- (Permutation_length Hperm), length_concat_sum, map_map.
    reflexivity.
Qed.

Lemma filter_nothing (A : Type) (f : A -> bool) (l : list A) :
  (forall x, In x l -> f x = false) -> filter f l = [].
Proof.
  intros Hf. induction l as [|x l IH]; simpl; [reflexivity|].
  rewrite (Hf x) by now left. apply IH. intros y Hy. apply Hf. now right.
Qed.

Lemma filter_all_in (A : Type) (f : A -> bool) (l : list A) :
  (forall x, In x l -> f x = true) -> filter f l = l.
Proof.
  intros Hf. induction l as [|x l IH]; simpl; [reflexivity|].
  rewrite (Hf x) by now left. f_equal. apply IH. intros y Hy. apply Hf. now right.
Qed.

(** A list with the latest date first splits, at its greatest date, into
    the orders of that date followed by all the others. *)
Lemma latest_first_split (orders : list Order) (k : Z) :
  latest_date_first local_offset orders ->
  (forall o, In o orders -> (key_of o <= k)%Z) ->
  orders = filter (fun o => (key_of o =? k)%Z) orders
           ++ filter (fun o => negb (key_of o =? k)%Z) orders.
Proof.
  unfold latest_date_first.
  induction orders as [|x orders IH]; intros Hsorted Hle; [reflexivity|].
  inversion Hsorted as [|y ys Hrest Hx]; subst. simpl.
  destruct (Z.eqb_spec (key_of x) k) as [Heq|Hne]; simpl.
  - f_equal. apply IH; [exact Hrest|]. intros o Ho. apply Hle. now right.
  - assert (Hlt : (key_of x < k)%Z).
    { pose proof (Hle x (or_introl eq_refl)). lia. }
    rewrite filter_nothing, filter_all_in; [reflexivity| |].
    + intros o Ho. rewrite Forall_forall in Hx. specialize (Hx o Ho).
      apply negb_true_iff. apply Z.eqb_neq. lia.
    + intros o Ho. rewrite Forall_forall in Hx. specialize (Hx o Ho).
      apply Z.eqb_neq. lia.
Qed.

Lemma latest_first_filter (orders : list Order) (f : Order -> bool) :
  latest_date_first local_offset orders ->
  latest_date_first local_offset (filter f orders).
Proof.
  unfold latest_date_first.
  induction orders as [|x orders IH]; intros Hsorted; simpl; [constructor|].
  inversion Hsorted as [|y ys Hrest Hx]; subst.
  destruct (f x); [|now apply IH].
  constructor; [now apply IH|].
  rewrite Forall_forall in *. intros o Ho. apply Hx.
  now apply filter_In in Ho as [Ho _].
Qed.

Lemma buckets_in_order (groups : list (Z * list Order)) (orders : list Order) :
  StronglySorted later groups ->
  Forall (fun g => snd g = filter (fun o => (key_of o =? fst g)%Z) orders) groups ->
  (forall o, In o orders -> In (key_of o) (map fst groups)) ->
  latest_date_first local_offset orders ->
  List.concat (map snd groups) = orders.
Proof.
  revert orders.
  induction groups as [|[k b] groups IH]; intros orders Hsorted Hall Hkeys Hfirst.
  - destruct orders as [|o orders]; [reflexivity|].
    destruct (Hkeys o (or_introl eq_refl)).
  - inversion Hsorted as [|g gs Hsorted' Hk]; subst.
    inversion Hall as [|g gs Hb Hall']; subst. simpl in Hb. simpl.
    assert (Hle : forall o, In o orders -> (key_of o <= k)%Z).
    { intros o Ho. destruct (Hkeys o Ho) as [<-|Hin]; [simpl; lia|].
      apply in_map_iff in Hin as (g & <- & Hg).
      rewrite Forall_forall in Hk. specialize (Hk g Hg). unfold later in Hk.
      simpl in Hk. lia. }
    etransitivity; [|symmetry; apply (latest_first_split Hfirst Hle)].
    rewrite Hb. f_equal.
    apply IH.
    + exact Hsorted'.
    + rewrite Forall_forall in *. intros g Hg. rewrite (Hall' g Hg).
      rewrite filter_twice. apply filter_ext. intros o.
      destruct (Z.eqb_spec (key_of o) (fst g)) as [Heq|_];
        [|now rewrite andb_false_r].
      specialize (Hk g Hg). unfold later in Hk. simpl in Hk.
      destruct (Z.eqb_spec (key_of o) k); [lia|reflexivity].
    + intros o Ho. apply filter_In in Ho as [Ho Hne].
      destruct (Hkeys o Ho) as [Heq|Hin]; [|exact Hin].
      simpl in Heq. rewrite Heq, Z.eqb_refl in Hne. discriminate.
    + now apply latest_first_filter.
Qed.

(** X14. When the orders come with the latest local date first (they
    are fetched newest first), grouping does not reorder anything: the
    buckets, read from top to bottom, are the list as it came, cut at
    the changes of date. *)
Theorem grouping_keeps_fetch_order (orders : list Order) :
  latest_date_first local_offset orders ->
  List.concat (map snd (groupOrdersByDate local_offset orders)) = orders.
Proof.
  intros Hfirst.
  destruct (groups_facts orders) as (Hsorted & Hall & Hperm). simpl in *.
  apply buckets_in_order; [exact Hsorted| | |exact Hfirst].
  - eapply Forall_impl; [|exact Hall]. now intros g [Hg _].
  - intros o Ho.
    apply (Permutation_in o (Permutation_sym Hperm)) in Ho.
    apply in_concat in Ho as (b & Hb & Ho).
    apply in_map_iff in Hb as (g & <- & Hg).
    rewrite Forall_forall in Hall. destruct (Hall g Hg) as [Hbk _].
    rewrite Hbk in Ho. apply filter_In in Ho as [_ Hkey].
    apply Z.eqb_eq in Hkey. rewrite Hkey. now apply in_map.
Qed.

End GroupingOrderFacts.

(** ** Status writes in sequence *)

Section StatusSequenceFacts.
Context {N : Number}.




(** X16. On a page whose copy of the orders shows the stored rows, a
    press handled from the current render keeps it so when the order
    pressed is the employee's own, whatever the store answers.  When an
    answer with no error comes back for a colleague's order whose stored
    status is not the one requested, the page no longer shows the stored
    rows: it shows a status that the store does not hold. *)
Theorem updateOrderStatus_page_in_sync (failure : bool) (me : string)
  (p : Orders.Page) (orderId newStatus : string) :
  page_in_sync p ->
  let result :=
    Orders.updateOrderStatus failure me (Orders.orders p) p orderId newStatus in
  (Forall (fun r => Schema.id r = orderId -> Schema.employee_id r = me)
          (Orders.table p) ->
   page_in_sync (fst result))
  /\ (forall r description,
        In r (Orders.table p) ->
        Schema.id r = orderId ->
        Schema.employee_id r <> me ->
        Schema.status r <> newStatus ->
        snd result = ToastSuccess description ->
        ~ page_in_sync (fst result)).
Proof.
  unfold page_in_sync, Orders.updateOrderStatus. intros Hsync. cbv zeta.
  destruct (update_status_answer failure me (Orders.table p) orderId newStatus)
    as [[_ ->]|[_ ->]]; simpl.
  - split; [intros _; exact Hsync|]. intros r description _ _ _ _ H. discriminate.
  - split.
    + intros Hown. rewrite <- Hsync in Hown |- *. rewrite !map_map.
      apply map_ext_in. intros o Ho. unfold Orders.id.
      rewrite Forall_forall in Hown.
      assert (Hrow : In (Orders.row o) (map Orders.row (Orders.orders p)))
        by now apply in_map.
      destruct (reached_spec me orderId (Orders.row o)) as [[Hid _]|Hnot].
      * apply String.eqb_eq in Hid. now rewrite Hid.
      * destruct (String.eqb_spec (Schema.id (Orders.row o)) orderId) as [Hid|_];
          [|reflexivity].
        exfalso. apply Hnot. split; [exact Hid|]. now apply Hown.
    + intros r description Hin Hid Hemp Hstatus _ Hafter.
      rewrite <- Hsync in Hin, Hafter. rewrite !map_map in Hafter.
      apply in_map_iff in Hin as (o & Hrow & Ho).
      pose proof (proj1 (@map_ext_in_iff _ _ _ _ _) Hafter o Ho) as Ho'.
      cbv beta in Ho'. unfold Orders.id in Ho'. rewrite Hrow in Ho'.
      apply String.eqb_eq in Hid as Hid'. rewrite Hid' in Ho'.
      destruct (reached_spec me orderId r) as [[_ Hmine]|_]; [contradiction|].
      simpl in Ho'. rewrite Hrow in Ho'.
      apply (f_equal Schema.status) in Ho'. simpl in Ho'. congruence.
Qed.




End StatusSequenceFacts.

(** ** Dashboard counts, reports, listings and the catalog *)

Section BackOfficeFacts.
Context {N : Number}.



Lemma upsert_fresh_row (uuid : string) (table : list FileManager.SalesReport)
  (values : FileManager.Values) :
  FileManager.values_id values = None ->
  ~ In uuid (map FileManager.id table) ->
  exists r,
    FileManager.upsert uuid table values = table ++ [r]
    /\ FileManager.id r = uuid
    /\ FileManager.report_date r = FileManager.values_report_date values
    /\ FileManager.file_path r = None.
Proof.
  intros Hid Hfresh. unfold FileManager.upsert. rewrite Hid.
  destruct (existsb (fun r => String.eqb (FileManager.id r) uuid) table) eqn:Hex.
  - exfalso. apply Hfresh.
    apply existsb_exists in Hex as (r & Hin & Heq).
    apply String.eqb_eq in Heq. rewrite <- Heq. now apply in_map.
  - eexists. split; [reflexivity|]. now repeat split.
Qed.

(** X19. [generateSalesReport] writes the report's record before it
    uploads the file and never tells the record where the file is: once
    the store has accepted the record, the record is there with no file
    path, whether the upload then succeeds or fails; when the upload
    fails the function returns nothing although the record was added.
    When the query or the save is refused, nothing is written. *)
Theorem generateSalesReport_record_has_no_file_path
  (answers : FileManager.Answers) (date : Z) (db : FileManager.Db) :
  ~ In (FileManager.gen_random_uuid answers)
       (map FileManager.id (FileManager.sales_reports db)) ->
  let result := FileManager.generateSalesReport answers date db in
  (FileManager.query_error answers = false ->
   FileManager.save_error answers = false ->
   snd result = FileManager.upload answers
   /\ exists r,
        FileManager.sales_reports (fst result)
        = FileManager.sales_reports db ++ [r]
        /\ FileManager.id r = FileManager.gen_random_uuid answers
        /\ FileManager.report_date r = iso_date date
        /\ FileManager.file_path r = None)
  /\ (FileManager.query_error answers = true
      \/ FileManager.save_error answers = true ->
      result = (db, None)).
Proof.
  intros Hfresh. simpl. split.
  - intros Hq Hs. unfold FileManager.generateSalesReport. rewrite Hq, Hs. simpl.
    split; [reflexivity|].
    match goal with
    | |- context [FileManager.upsert ?u ?t ?v] =>
        destruct (@upsert_fresh_row u t v eq_refl Hfresh)
          as (r & -> & Hi & Hd & Hf)
    end.
    exists r. now repeat split.
  - unfold FileManager.generateSalesReport.
    intros [Hq|Hs]; [now rewrite Hq|].
    rewrite Hs. now destruct (FileManager.query_error answers).
Qed.

Section ListingFacts.
Variable file_name : Z -> string.

(** X20. [exportProductListing] writes a listing record only after the
    file has been uploaded, and the record then holds the path of that
    file; without an upload nothing is written and nothing returned.
    The exported document lists every product it was given, inactive
    ones included, in the same order.  The function returns the upload's
    result even when the store has refused the record. *)
Theorem exportProductListing_record_follows_upload
  (answers : Listings.Answers) (now : Z) (products : @Catalog.Table N)
  (table : list Listings.ProductListing) :
  let result := Listings.exportProductListing file_name answers now products table in
  snd result = Listings.upload answers
  /\ (Listings.upload answers = None -> fst result = table)
  /\ (Listings.insert_refused answers = true -> fst result = table)
  /\ (forall uploaded,
        Listings.upload answers = Some uploaded ->
        Listings.insert_refused answers = false ->
        exists r,
          fst result = table ++ [r]
          /\ Listings.file_path r = FileManager.path uploaded
          /\ Listings.listing_name r = file_name (iso_date now)
          /\ map Listings.id (Listings.products (Listings.listing_data r))
             = map (fun row => CreateOrder.id (fst row)) products
          /\ map Listings.is_active (Listings.products (Listings.listing_data r))
             = map snd products).
Proof.
  unfold Listings.exportProductListing. simpl.
  destruct (Listings.upload answers) as [uploaded|]; simpl.
  - split; [reflexivity|]. split; [discriminate|]. split.
    + now intros ->.
    + intros u [= <-] ->. eexists. split; [reflexivity|]. simpl.
      rewrite !map_map. now repeat split.
  - split; [reflexivity|]. split; [reflexivity|]. split; [reflexivity|].
    discriminate.
Qed.

End ListingFacts.

Section CatalogFacts.
Variable name_cmp : string -> string -> Z.

Lemma fetchProducts_offers (table : @Catalog.Table N)
  (products : list CreateOrder.Product) (p : CreateOrder.Product) :
  In p (fst (Catalog.fetchProducts name_cmp false table products))
  <-> In (p, true) table.
Proof.
  unfold Catalog.fetchProducts. simpl. split.
  - intros Hin.
    apply (Permutation_in p (sort_by_permutation _ _)) in Hin.
    apply in_map_iff in Hin as ([q b] & <- & Hq).
    apply filter_In in Hq as [Hq Hb]. simpl in Hb. now subst b.
  - intros Hin.
    apply (Permutation_in p (Permutation_sym (sort_by_permutation _ _))).
    apply in_map_iff. exists (p, true). split; [reflexivity|].
    apply filter_In. now split.
Qed.

(** X21. The order form offers exactly the active products of the
    catalog.  Deactivating a product on the admin page deletes no row:
    the table keeps its length; the product is no longer offered on the
    order form, every other product is offered exactly as before, and
    the dashboard's count of active products is the number of products
    the form offers. *)
Theorem deactivated_product_is_no_longer_offered (table : @Catalog.Table N)
  (productId : string) (products : list CreateOrder.Product)
  (now : Z) (orders : list Schema.OrderRow) :
  let table' := fst (Catalog.handleDeleteProduct false table productId) in
  let offered := fst (Catalog.fetchProducts name_cmp false table' products) in
  List.length table' = List.length table
  /\ (forall p, In p offered -> CreateOrder.id p <> productId)
  /\ (forall p, CreateOrder.id p <> productId ->
                (In p offered
                 <-> In p (fst (Catalog.fetchProducts name_cmp false table products))))
  /\ Dashboard.activeProducts
       (Dashboard.fetchStats all_answered now
          {| Dashboard.orders := orders; Dashboard.products := table' |})
     = Z.of_nat (List.length offered).
Proof.
  cbv zeta.
  set (table' := fst (Catalog.handleDeleteProduct false table productId)).
  assert (Hrows : forall p b, In (p, b) table' ->
                    (CreateOrder.id p = productId -> b = false)
                    /\ (CreateOrder.id p <> productId -> In (p, b) table)).
  { intros p b Hin. apply in_map_iff in Hin as ([q c] & Hrow & Hin). simpl in Hrow.
    destruct (String.eqb_spec (CreateOrder.id q) productId) as [Heq|Hne];
      injection Hrow as <- <-; split; intros H; congruence. }
  split; [apply length_map|]. split; [|split].
  - intros p Hp Hid. apply (fetchProducts_offers table' products) in Hp.
    destruct (Hrows _ _ Hp) as [Hfalse _]. specialize (Hfalse Hid). discriminate.
  - intros p Hid.
    rewrite (fetchProducts_offers table' products),
      (fetchProducts_offers table products). split.
    + intros Hp. now apply (Hrows _ _ Hp).
    + intros Hp. apply in_map_iff. exists (p, true). split; [|exact Hp].
      simpl. destruct (String.eqb_spec (CreateOrder.id p) productId);
        [contradiction|reflexivity].
  - unfold Catalog.fetchProducts, Dashboard.fetchStats, Dashboard.select_count.
    simpl. f_equal.
    rewrite (Permutation_length (sort_by_permutation _ _)). now rewrite length_map.
Qed.

End CatalogFacts.
End BackOfficeFacts.

(** ** Day windows *)

Section WindowFacts.
Context {N : Number}.

(** X22. The day windows of the statistics and of the reports never
    overlap, so an order is counted for one date at most; and an order
    created during the last second of a day, from 23:59:59 on, falls in
    no date's window at all: no daily report ever counts it. *)
Theorem day_windows_disjoint_with_gaps (r : Schema.OrderRow) (d d' : Z) :
  (Schema.in_day_window d r = true -> Schema.in_day_window d' r = true -> d = d')
  /\ ((T23_59_59 d <= Schema.created_at r < T00_00_00 (d + 1))%Z ->
      Schema.in_day_window d' r = false).
Proof.
  unfold Schema.in_day_window, T00_00_00, T23_59_59, us_per_second. split.
  - rewrite !andb_true_iff, !Z.leb_le, !Z.ltb_lt. lia.
  - intros H. apply andb_false_iff. rewrite Z.leb_gt, Z.ltb_ge. lia.
Qed.

End WindowFacts.

(** ** The further properties on sample data *)

(** X5 on a table number typed as 5.5: the order is submitted for table 5. *)
Lemma table_number_stored_as_typed_witness :
  let f := dine_in_form [line pizza 1] "5.5" in
  let db' := fst (CreateOrder.handleSubmitOrder accepting_store f empty_db) in
  float_of_Z (Z.of_nat 5) = 5%float
  /\ exists orderData,
       CreateOrder.orders db'
       = CreateOrder.orders empty_db ++ [("order-1"%string, orderData)]
       /\ CreateOrder.table_number orderData = Some (float_of_Z (Z.of_nat 5)).
Proof.
  intros f db'. split; [vm_compute; reflexivity|].
  apply (@table_number_stored_as_typed js_number accepting_store f empty_db db'
           "order-1" 5 ".5"); reflexivity.
Defined.

(** Table numbers as [parseInt] reads them: the numbers below 1000 come
    out as themselves, a number beyond 2^53 as the nearest double; white
    space outside ASCII (here U+00A0) is skipped, a sign and a
    hexadecimal prefix are read, and a minus sign before a zero gives
    [-0]. *)
Example parseInt_table_numbers :
  forallb (fun n => match js_floor (parseInt (decimal n)) with
                    | Some k => (k =? Z.of_nat n)%Z
                    | None => false
                    end) (seq 0 1000) = true
  /\ parseInt "9007199254740993" = 9007199254740992%float
  /\ parseInt (String (ascii_of_nat 194) (String (ascii_of_nat 160) "5")) = 5%float
  /\ parseInt "  -12abc" = (-12)%float
  /\ parseInt "0x1f" = 31%float
  /\ parseInt "-0" = PrimFloat.neg_zero
  /\ parseInt "" = NaN.
Proof. repeat split; vm_compute; reflexivity. Qed.

(** X7 on a delivery order. *)
Lemma stored_order_fields_match_type_witness :
  let f := delivery_form [line pizza 1] in
  let db' := fst (CreateOrder.handleSubmitOrder accepting_store f empty_db) in
  exists orderData,
    CreateOrder.orders db'
    = CreateOrder.orders empty_db ++ [("order-1"%string, orderData)]
    /\ CreateOrder.order_type orderData = CreateOrder.delivery
    /\ CreateOrder.table_number orderData = None
    /\ CreateOrder.customer_name orderData = Some "Ada"%string.
Proof.
  intros f db'.
  destruct (@stored_order_fields_match_type js_number accepting_store f empty_db
              db' "order-1" eq_refl)
    as (orderData & Horders & Htype & Hfields).
  exists orderData. rewrite Htype in Hfields. simpl in Htype, Hfields.
  destruct Hfields as (Ht & Hn & _). now repeat split.
Defined.

(** X8 on a cart of two pizzas and a soda built with three clicks. *)
Lemma built_cart_submission_rows_witness :
  let f := dine_in_form (fold_left CreateOrder.on_event three_clicks []) "5" in
  let db' := fst (CreateOrder.handleSubmitOrder accepting_store f empty_db) in
  exists rows,
    CreateOrder.order_items db' = CreateOrder.order_items empty_db ++ rows
    /\ rows <> []
    /\ List.length rows = List.length (CreateOrder.orderItems f)
    /\ NoDup (map CreateOrder.product_id rows)
    /\ Forall (fun r => (1 <= CreateOrder.item_quantity r)%Z) rows.
Proof.
  intros f db'.
  apply (@built_cart_submission_rows js_number three_clicks accepting_store f
           empty_db db' "order-1"); reflexivity.
Defined.

(** X10 on an identifier written in upper case. *)
Lemma search_by_shown_number_finds_order_witness :
  let o := sample_order "3F2A9C1E-77aa-4b1c" 0 in
  let orders := [sample_order "0b1d5e6f-1234-4cde" 0; o] in
  OrdersList.shown_number o = "3F2A9C1E"%string
  /\ In o (OrdersList.filteredOrders "pending" "all" (OrdersList.shown_number o) orders).
Proof.
  intros o orders. split; [reflexivity|].
  apply (@search_by_shown_number_finds_order js_number "pending" "all" orders o).
  - simpl. tauto.
  - right. reflexivity.
  - left. reflexivity.
Defined.

(** X11 on a pending order of the employee's own that is completed. *)
Lemma updated_order_moves_between_status_filters_witness :
  let p := @Orders.Build_Page js_number [sample_row "order-1" "pending" 0]
                              [sample_order "order-1" 0] in
  let p' := fst (Orders.updateOrderStatus false "employee-1" (Orders.orders p) p
                                          "order-1" "completed") in
  let o := Orders.with_status (sample_order "order-1" 0) "completed" in
  In o (OrdersList.filteredOrders "completed" "all" "" (Orders.orders p'))
  /\ ~ In o (OrdersList.filteredOrders "pending" "all" "" (Orders.orders p')).
Proof.
  intros p p' o.
  destruct (@updated_order_moves_between_status_filters js_number
              false "employee-1" (Orders.orders p) p p' "order-1" "completed"
              "Order status updated to completed" o) as [H1 H2].
  - reflexivity.
  - simpl. tauto.
  - reflexivity.
  - split; [exact H1|]. apply H2; discriminate.
Defined.

(** X14 on four orders fetched newest first, seen five hours behind UTC. *)
Lemma grouping_keeps_fetch_order_witness :
  let orders := [ sample_order "c" (at_time (ref_day + 1) 13 0 0 0);
                  sample_order "b" (at_time (ref_day + 1) 3 0 0 0);
                  sample_order "a" (at_time ref_day 12 0 0 0);
                  sample_order "d" (at_time (ref_day - 1) 13 0 0 0) ] in
  List.concat (map snd (Orders.groupOrdersByDate utc_minus_5 orders)) = orders.
Proof.
  intros orders.
  apply (@grouping_keeps_fetch_order js_number utc_minus_5 orders).
  unfold latest_date_first.
  repeat constructor; apply Z.leb_le; reflexivity.
Defined.


(** X16 on a page showing an order of the employee's own and one of a
    colleague: completing the first keeps the page showing the stored
    rows; completing the second does not. *)
Lemma updateOrderStatus_page_in_sync_witness :
  let mine := sample_row "order-1" "pending" 0 in
  let theirs := colleague_row "order-2" "pending" 0 in
  let p := @Orders.Build_Page js_number [mine; theirs]
                              [order_of_row mine; order_of_row theirs] in
  page_in_sync (fst (Orders.updateOrderStatus false "employee-1" (Orders.orders p) p
                                              "order-1" "completed"))
  /\ ~ page_in_sync (fst (Orders.updateOrderStatus false "employee-1"
                                                   (Orders.orders p) p
                                                   "order-2" "completed")).
Proof.
  intros mine theirs p.
  assert (Hsync : page_in_sync p) by reflexivity.
  split.
  - destruct (@updateOrderStatus_page_in_sync js_number false "employee-1" p
                "order-1" "completed" Hsync) as [H _].
    apply H. repeat constructor; simpl; intros H0; (reflexivity || discriminate).
  - destruct (@updateOrderStatus_page_in_sync js_number false "employee-1" p
                "order-2" "completed" Hsync) as [_ H].
    apply (H theirs "Order status updated to completed"%string).
    + simpl. tauto.
    + reflexivity.
    + discriminate.
    + discriminate.
    + reflexivity.
Defined.


(** X19 on a first report whose upload fails. *)
Lemma generateSalesReport_record_has_no_file_path_witness :
  let db := @FileManager.Build_Db js_number [] [] in
  let result := FileManager.generateSalesReport (report_saved "report-1")
                                                ref_noon_ms db in
  snd result = None
  /\ map FileManager.file_path (FileManager.sales_reports (fst result)) = [None].
Proof.
  intros db result.
  destruct (@generateSalesReport_record_has_no_file_path js_number
              (report_saved "report-1") ref_noon_ms db) as [H _].
  - simpl. tauto.
  - destruct (H eq_refl eq_refl) as (Hres & r & Hrows & _ & _ & Hpath).
    split; [exact Hres|]. fold result in Hrows. rewrite Hrows. simpl.
    now rewrite Hpath.
Defined.
